(** * Collaborative session hub of the whiteboard backend

    A shallow embedding of the Socket.IO connection handler of
    [src/server.js]: the permission check made at join, the room
    bookkeeping, the presence messages and the event relay.

    Handlers are modelled as atomic transitions of a hub state that
    returns the list of messages put on the wire.  The three awaited
    lookups of the join handler (token verification, user lookup,
    whiteboard lookup) are inputs of the transition; nothing is written
    to the hub before the last of them has returned.

    The room adapter follows Socket.IO: [socket.join r] adds the socket id
    to the insertion-ordered set of room [r] (created on demand),
    [socket.to(r).emit] delivers to every id of room [r] but the sender's,
    and a closing transport takes the socket out of every room and out of
    the socket table before the [disconnect] handler runs.  A new
    connection is put in the room named by its own id, in the same
    adapter as the rooms named by whiteboard ids.  A transport that
    closes while its join handler is still awaiting a lookup is left
    out. *)

From stdpp Require Import gmap strings list fin_maps.

Local Open Scope string_scope.

(** ** Data model *)

Abbreviation SocketId := string (only parsing).
Abbreviation RoomId := string (only parsing).
Abbreviation UserId := string (only parsing).

(** Values carried by client payloads. *)
Inductive JVal : Type :=
| JUndefined
| JNull
| JBool (b : bool)
| JNum (z : Z)
| JStr (s : string)
| JRaw (json : string).

Abbreviation Payload := (gmap string JVal) (only parsing).

(** A JavaScript field that is [undefined] until assigned. *)
Definition js_field (o : option string) : JVal :=
  match o with
  | Some s => JStr s
  | None => JUndefined
  end.

(** Truthiness of an optional string: [undefined] and the empty string
    are falsy. *)
Definition truthy (o : option string) : bool :=
  match o with
  | Some s => negb (bool_decide (s = ""))
  | None => false
  end.

(** [models/User]: the two fields the hub reads. *)
Record User : Type := mkUser {
  u_id : UserId;
  u_username : string
}.

(** [models/Whiteboard]: the populated access record. *)
Record Collaborator : Type := mkCollaborator {
  c_user : UserId;
  c_permission : string
}.

Record Whiteboard : Type := mkWhiteboard {
  wb_owner : UserId;
  wb_collaborators : list Collaborator;
  wb_isPublic : bool
}.

(** The per-connection fields the handlers keep on the socket object;
    all of them are [undefined] until the first successful join. *)
Record Socket : Type := mkSocket {
  s_userId : option UserId;
  s_username : option string;
  s_userRole : option string;
  s_canEdit : option bool;
  s_whiteboardId : option RoomId
}.

Definition new_socket : Socket :=
  mkSocket None None None None None.

(** [io.sockets.sockets] and [io.sockets.adapter.rooms]. *)
Record Hub : Type := mkHub {
  sockets : gmap string Socket;
  rooms : gmap string (list string)
}.

Definition empty_hub : Hub := mkHub ∅ ∅.

(** Outbound events. *)
Record UserInfo : Type := mkUserInfo {
  ui_socketId : SocketId;
  ui_username : option string;
  ui_userRole : option string
}.

Inductive OutEvent : Type :=
| error (message : string)
| user_joined (userId username userRole : string) (socketId : SocketId)
| room_info (whiteboardId : RoomId) (users : list UserInfo)
            (yourRole : string) (canEdit : bool)
| user_left (userId username : option string) (socketId : SocketId)
| relay (name : string) (payload : gmap string JVal).

(** A message on the wire: the receiving connection and the event. *)
Abbreviation Msg := (string * OutEvent)%type (only parsing).

(** ** Permission check of the join handler *)

Definition find_collaborator (uid : UserId) (cs : list Collaborator)
  : option Collaborator :=
  find (fun collab => bool_decide (c_user collab = uid)) cs.

(** [['edit', 'admin'].includes(p)] *)
Definition edit_or_admin (p : string) : bool :=
  bool_decide (p ∈ ["edit"; "admin"]).

(** The branch on owner / collaborator / public of the join handler;
    [None] is the [Access denied] exit. *)
Definition join_permission (wb : Whiteboard) (uid : UserId)
  : option (string * bool) :=
  if bool_decide (wb_owner wb = uid) then Some ("owner", true)
  else
    match find_collaborator uid (wb_collaborators wb) with
    | Some collaborator =>
        Some (c_permission collaborator,
              edit_or_admin (c_permission collaborator))
    | None =>
        if wb_isPublic wb then Some ("viewer", false) else None
    end.

(** ** Room adapter *)

Definition members (st : Hub) (r : RoomId) : list SocketId :=
  default [] (rooms st !! r).

(** [Set.prototype.add] on the insertion-ordered member set. *)
Definition set_add (x : string) (l : list string) : list string :=
  if bool_decide (x ∈ l) then l else l ++ [x].

Definition set_delete (x : string) (l : list string) : list string :=
  filter (fun y => y ≠ x) l.

(** [socket.join(r)] *)
Definition socket_join (sid : SocketId) (r : RoomId)
  (rs : gmap string (list string)) : gmap string (list string) :=
  <[r := set_add sid (default [] (rs !! r))]> rs.

(** Leaving every room on close; a room that becomes empty is dropped. *)
Definition leave_all (sid : SocketId) (rs : gmap string (list string))
  : gmap string (list string) :=
  omap (fun l => match set_delete sid l with
                 | [] => None
                 | l' => Some l'
                 end) rs.

(** [socket.to(room).emit(ev)]: every member of the room but the sender.
    An [undefined] room has no members. *)
Definition to_emit (st : Hub) (sender : SocketId) (room : option RoomId)
  (ev : OutEvent) : list (string * OutEvent) :=
  match room with
  | Some r => (fun m => (m, ev)) <$> set_delete sender (members st r)
  | None => []
  end.

(** The [usersInRoom] snapshot of the join handler, with its filter of
    ids that have no socket object. *)
Definition usersInRoom (st : Hub) (r : RoomId) : list UserInfo :=
  match rooms st !! r with
  | Some room =>
      omap (fun socketId =>
              match sockets st !! socketId with
              | Some socketInfo =>
                  Some (mkUserInfo socketId (s_username socketInfo)
                                   (s_userRole socketInfo))
              | None => None
              end) room
  | None => []
  end.

(** ** Event handlers

    Each handler is a function of the hub, the id of the socket it was
    registered on and that socket's fields; it returns the new hub and
    the messages emitted, in order. *)

(** The eight handlers guarded by [socket.canEdit]. *)
Inductive EditEvent : Type :=
| drawing
| drawing_start
| drawing_end
| sticky_note_add
| sticky_note_update
| sticky_note_delete
| undo
| redo.

Definition event_name (e : EditEvent) : string :=
  match e with
  | drawing => "drawing"
  | drawing_start => "drawing-start"
  | drawing_end => "drawing-end"
  | sticky_note_add => "sticky-note-add"
  | sticky_note_update => "sticky-note-update"
  | sticky_note_delete => "sticky-note-delete"
  | undo => "undo"
  | redo => "redo"
  end.

Definition denied_message (e : EditEvent) : string :=
  match e with
  | drawing | drawing_start | drawing_end =>
      "You do not have permission to draw"
  | sticky_note_add => "You do not have permission to add sticky notes"
  | sticky_note_update => "You do not have permission to edit sticky notes"
  | sticky_note_delete =>
      "You do not have permission to delete sticky notes"
  | undo | redo => "You do not have permission to perform this action"
  end.

(** [{...data, userId: socket.userId, username: socket.username}] *)
Definition tag_sender (socket : Socket) (data : gmap string JVal)
  : gmap string JVal :=
  <["username" := js_field (s_username socket)]>
    (<["userId" := js_field (s_userId socket)]> data).

(** The same with [socketId: socket.id], as the cursor handler does. *)
Definition tag_sender_socket (sid : SocketId) (socket : Socket)
  (data : gmap string JVal) : gmap string JVal :=
  <["socketId" := JStr sid]> (tag_sender socket data).

Definition on_edit (e : EditEvent) (st : Hub) (sid : SocketId)
  (socket : Socket) (data : gmap string JVal)
  : Hub * list (string * OutEvent) :=
  if negb (default false (s_canEdit socket)) then
    (st, [(sid, error (denied_message e))])
  else
    (st, to_emit st sid (s_whiteboardId socket)
           (relay (event_name e) (tag_sender socket data))).

Definition is_owner_or_admin (role : option string) : bool :=
  bool_decide (role = Some "owner") || bool_decide (role = Some "admin").

Definition on_clear_board (st : Hub) (sid : SocketId) (socket : Socket)
  (data : gmap string JVal) : Hub * list (string * OutEvent) :=
  if negb (is_owner_or_admin (s_userRole socket)) then
    (st, [(sid, error "You do not have permission to clear the board")])
  else
    (st, to_emit st sid (s_whiteboardId socket)
           (relay "clear-board" (tag_sender socket data))).

Definition on_cursor_move (st : Hub) (sid : SocketId) (socket : Socket)
  (data : gmap string JVal) : Hub * list (string * OutEvent) :=
  if truthy (s_whiteboardId socket) then
    (st, to_emit st sid (s_whiteboardId socket)
           (relay "cursor-move" (tag_sender_socket sid socket data)))
  else (st, []).

(** The [disconnect] handler proper: it only notifies.  [st] is the hub
    after the transport has taken the socket out of its rooms. *)
Definition on_disconnect (st : Hub) (sid : SocketId) (socket : Socket)
  : list (string * OutEvent) :=
  if truthy (s_whiteboardId socket) then
    to_emit st sid (s_whiteboardId socket)
      (user_left (s_userId socket) (s_username socket) sid)
  else [].

(** What the transport does on close before [disconnect] fires. *)
Definition close_socket (st : Hub) (sid : SocketId) : Hub :=
  mkHub (delete sid (sockets st)) (leave_all sid (rooms st)).

(** *** The join handler *)

(** Outcome of a call that may throw. *)
Inductive result (A : Type) : Type :=
| Ok (a : A)
| Throw.
Arguments Ok {A} a.
Arguments Throw {A}.

(** The external lookups awaited by the join handler, as they answer at
    the time of the call. *)
Record Oracle : Type := mkOracle {
  jwt_verify : string -> result UserId;
  User_findById : UserId -> result (option User);
  Whiteboard_findById : RoomId -> result (option Whiteboard)
}.

Record JoinData : Type := mkJoinData {
  jd_whiteboardId : RoomId;
  jd_token : option string
}.

Definition join_failed (st : Hub) (sid : SocketId) (message : string)
  : Hub * list (string * OutEvent) :=
  (st, [(sid, error message)]).

(** The writes after a granted permission check: [socket.join], the five
    session fields, the arrival notice and the room info. *)
Definition enter_room (st : Hub) (sid : SocketId) (user : User)
  (whiteboardId : RoomId) (userRole : string) (canEdit : bool)
  : Hub * list (string * OutEvent) :=
  let socket' := mkSocket (Some (u_id user)) (Some (u_username user))
                          (Some userRole) (Some canEdit)
                          (Some whiteboardId) in
  let st' := mkHub (<[sid := socket']> (sockets st))
                   (socket_join sid whiteboardId (rooms st)) in
  (st',
   (to_emit st' sid (Some whiteboardId)
      (user_joined (u_id user) (u_username user) userRole sid)
    ++ [(sid, room_info whiteboardId (usersInRoom st' whiteboardId)
                        userRole canEdit)])%list).

Definition on_join_whiteboard (db : Oracle) (st : Hub) (sid : SocketId)
  (data : option JoinData) : Hub * list (string * OutEvent) :=
  match data with
  | None => join_failed st sid "Failed to join whiteboard"
  | Some d =>
    match jd_token d with
    | Some token =>
      if negb (truthy (Some token)) then
        join_failed st sid "Authentication required"
      else
        match jwt_verify db token with
        | Throw => join_failed st sid "Failed to join whiteboard"
        | Ok decoded =>
          match User_findById db decoded with
          | Throw => join_failed st sid "Failed to join whiteboard"
          | Ok None => join_failed st sid "User not found"
          | Ok (Some user) =>
            match Whiteboard_findById db (jd_whiteboardId d) with
            | Throw => join_failed st sid "Failed to join whiteboard"
            | Ok None => join_failed st sid "Whiteboard not found"
            | Ok (Some whiteboard) =>
              match join_permission whiteboard (u_id user) with
              | None => join_failed st sid "Access denied"
              | Some (userRole, canEdit) =>
                  enter_room st sid user (jd_whiteboardId d)
                             userRole canEdit
              end
            end
          end
        end
    | None => join_failed st sid "Authentication required"
    end
  end.

(** ** The hub as a transition system *)

Inductive Input : Type :=
| connection (sid : SocketId)
| join_whiteboard (sid : SocketId) (data : option JoinData) (db : Oracle)
| edit (sid : SocketId) (e : EditEvent) (data : gmap string JVal)
| clear_board (sid : SocketId) (data : gmap string JVal)
| cursor_move (sid : SocketId) (data : gmap string JVal)
| disconnect (sid : SocketId).

(** Handlers only exist on connected sockets; an id that is not in the
    socket table receives nothing.  Connection ids are unique: a
    [connection] for an id in use does not occur and is ignored.  On
    connection the socket joins the room of its own id. *)
Definition step (st : Hub) (i : Input) : Hub * list (string * OutEvent) :=
  match i with
  | connection sid =>
      match sockets st !! sid with
      | Some _ => (st, [])
      | None =>
          (mkHub (<[sid := new_socket]> (sockets st))
                 (socket_join sid sid (rooms st)), [])
      end
  | join_whiteboard sid data db =>
      match sockets st !! sid with
      | Some _ => on_join_whiteboard db st sid data
      | None => (st, [])
      end
  | edit sid e data =>
      match sockets st !! sid with
      | Some socket => on_edit e st sid socket data
      | None => (st, [])
      end
  | clear_board sid data =>
      match sockets st !! sid with
      | Some socket => on_clear_board st sid socket data
      | None => (st, [])
      end
  | cursor_move sid data =>
      match sockets st !! sid with
      | Some socket => on_cursor_move st sid socket data
      | None => (st, [])
      end
  | disconnect sid =>
      match sockets st !! sid with
      | Some socket =>
          let st' := close_socket st sid in
          (st', on_disconnect st' sid socket)
      | None => (st, [])
      end
  end.

(** The hub after a sequence of inputs, from the empty hub. *)
Definition run_from (st : Hub) (tr : list Input) : Hub :=
  foldl (fun s i => fst (step s i)) st tr.

Definition run (tr : list Input) : Hub := run_from empty_hub tr.

(** ** Specification-side definitions *)

(** The precedence of the access decision, as a relation between an
    access record, a user id and the outcome: owner, then the first
    collaborator entry of the user, then public visibility, then denial.
    A public visitor gets the role string [viewer]. *)
Inductive resolves (wb : Whiteboard) (uid : UserId)
  : option (string * bool) -> Prop :=
| resolves_owner :
    wb_owner wb = uid ->
    resolves wb uid (Some ("owner", true))
| resolves_collaborator before c after (canEdit : bool) :
    wb_owner wb ≠ uid ->
    wb_collaborators wb = (before ++ c :: after)%list ->
    Forall (fun c' => c_user c' ≠ uid) before ->
    c_user c = uid ->
    (canEdit = true <-> c_permission c = "edit" \/ c_permission c = "admin") ->
    resolves wb uid (Some (c_permission c, canEdit))
| resolves_public :
    wb_owner wb ≠ uid ->
    Forall (fun c' => c_user c' ≠ uid) (wb_collaborators wb) ->
    wb_isPublic wb = true ->
    resolves wb uid (Some ("viewer", false))
| resolves_denied :
    wb_owner wb ≠ uid ->
    Forall (fun c' => c_user c' ≠ uid) (wb_collaborators wb) ->
    wb_isPublic wb = false ->
    resolves wb uid None.

(** The lookups of a join that reach the permission check. *)
Definition reaches_check (db : Oracle) (d : JoinData) (user : User)
  (wb : Whiteboard) : Prop :=
  exists token decoded,
    jd_token d = Some token /\ token ≠ "" /\
    jwt_verify db token = Ok decoded /\
    User_findById db decoded = Ok (Some user) /\
    Whiteboard_findById db (jd_whiteboardId d) = Ok (Some wb).

(** Whether [out] carries a room info for room [r] addressed to [sid]:
    the mark of a join that succeeded. *)
Definition got_room_info (sid : SocketId) (r : RoomId)
  (out : list (string * OutEvent)) : bool :=
  existsb (fun m => match m with
                    | (to, room_info r' _ _ _) =>
                        bool_decide (to = sid) && bool_decide (r' = r)
                    | _ => false
                    end) out.

(** History of one session and one room along a run: [true] once the
    session has been sent the room info of [r], [false] again once it
    disconnects. *)
Fixpoint joined_live_from (st : Hub) (acc : bool) (tr : list Input)
  (r : RoomId) (sid : SocketId) : bool :=
  match tr with
  | [] => acc
  | i :: tr' =>
      let acc' :=
        if got_room_info sid r (snd (step st i)) then true
        else match i with
             | disconnect sid' => if bool_decide (sid' = sid) then false
                                  else acc
             | _ => acc
             end in
      joined_live_from (fst (step st i)) acc' tr' r sid
  end.

Definition joined_live (tr : list Input) (r : RoomId) (sid : SocketId)
  : bool :=
  joined_live_from empty_hub false tr r sid.

(** The room a join request is let into, read off the lookups alone:
    the token is there and verifies, the user and the board exist, and
    the user is owner, collaborator or visitor of a public board. *)
Definition join_target (db : Oracle) (data : option JoinData)
  : option RoomId :=
  match data with
  | Some d =>
    match jd_token d with
    | Some token =>
      if bool_decide (token = "") then None
      else
        match jwt_verify db token with
        | Ok decoded =>
          match User_findById db decoded with
          | Ok (Some user) =>
            match Whiteboard_findById db (jd_whiteboardId d) with
            | Ok (Some wb) =>
                if bool_decide (is_Some (join_permission wb (u_id user)))
                then Some (jd_whiteboardId d) else None
            | _ => None
            end
          | _ => None
          end
        | Throw => None
        end
    | None => None
    end
  | None => None
  end.

(** The history of one connection id, read off the inputs alone: [None]
    while no connection of that id is open, and otherwise the rooms the
    connection has been let into since it opened, latest first. *)
Definition record_input (sid : SocketId) (h : option (list RoomId))
  (i : Input) : option (list RoomId) :=
  match i with
  | connection sid' =>
      if bool_decide (sid' = sid) then Some (default [] h) else h
  | join_whiteboard sid' data db =>
      if bool_decide (sid' = sid) then
        match join_target db data with
        | Some r => cons r <$> h
        | None => h
        end
      else h
  | disconnect sid' => if bool_decide (sid' = sid) then None else h
  | _ => h
  end.

Definition joined_rooms (tr : list Input) (sid : SocketId)
  : option (list RoomId) :=
  foldl (record_input sid) None tr.

(** The session has successfully joined room [r] since it connected and
    has not disconnected. *)
Definition entered (tr : list Input) (r : RoomId) (sid : SocketId) : bool :=
  match joined_rooms tr sid with
  | Some rs => bool_decide (r ∈ rs)
  | None => false
  end.

(** The connection ids of a snapshot. *)
Definition snapshot_ids (st : Hub) (r : RoomId) : list SocketId :=
  ui_socketId <$> usersInRoom st r.

Definition is_user_left (ev : OutEvent) : bool :=
  match ev with
  | user_left _ _ _ => true
  | _ => false
  end.

(** Invariants of the hub kept by every handler. *)
Record hub_inv (st : Hub) : Prop := mkHubInv {
  inv_nodup : forall r l, rooms st !! r = Some l -> NoDup l;
  inv_connected : forall r l m,
    rooms st !! r = Some l -> m ∈ l -> is_Some (sockets st !! m);
  inv_cached : forall sid s r,
    sockets st !! sid = Some s -> s_whiteboardId s = Some r ->
    sid ∈ members st r;
  inv_fresh : forall sid s,
    sockets st !! sid = Some s -> s_whiteboardId s = None ->
    s = new_socket;
  inv_fields : forall sid s r,
    sockets st !! sid = Some s -> s_whiteboardId s = Some r ->
    is_Some (s_userId s) /\ is_Some (s_username s) /\
    is_Some (s_userRole s) /\ is_Some (s_canEdit s)
}.

(** ** A small deployment used in the examples *)

Definition board_team : Whiteboard :=
  mkWhiteboard "u-ann"
    [mkCollaborator "u-bob" "view"; mkCollaborator "u-cy" "edit";
     mkCollaborator "u-eve" "admin"] false.

Definition board_open : Whiteboard :=
  mkWhiteboard "u-ann" [] true.

(** Tokens stand for the user id they decode to; [expired] is rejected
    by the verification. *)
Definition demo_db : Oracle :=
  mkOracle
    (fun token => if bool_decide (token = "expired") then Throw
                  else Ok token)
    (fun uid =>
       if bool_decide (uid ∈ ["u-ann"; "u-bob"; "u-cy"; "u-eve"; "u-dan"])
       then Ok (Some (mkUser uid ("name of " +:+ uid)))
       else Ok None)
    (fun wid =>
       if bool_decide (wid = "D-team") then Ok (Some board_team)
       else if bool_decide (wid = "D-open") then Ok (Some board_open)
       else Ok None).

Definition join_as (sid : SocketId) (uid : UserId) (wid : RoomId) : Input :=
  join_whiteboard sid (Some (mkJoinData wid (Some uid))) demo_db.

(** Ann and Bob are both in [D-team]; Bob then joins [D-open]. *)
Definition two_in_team : list Input :=
  [connection "s-ann"; connection "s-bob";
   join_as "s-ann" "u-ann" "D-team"; join_as "s-bob" "u-bob" "D-team"].

Definition bob_moves : Input := join_as "s-bob" "u-bob" "D-open".

(** A deployment in which a board has been created under the id that a
    connection bears: the public board of Ann is stored as [s-bob]. *)
Definition namesake_db : Oracle :=
  mkOracle (jwt_verify demo_db) (User_findById demo_db)
    (fun wid =>
       if bool_decide (wid = "s-bob") then Ok (Some board_open)
       else Whiteboard_findById demo_db wid).

(** Ann and Bob connect; Ann joins the board [s-bob]; Bob sends no join
    at all. *)
Definition ann_joins_namesake : list Input :=
  [connection "s-ann"; connection "s-bob";
   join_whiteboard "s-ann" (Some (mkJoinData "s-bob" (Some "u-ann")))
                   namesake_db].

(** ** The REST side: [middleware/permissions] and [routes/whiteboard]

    The whiteboard collection is a finite map from document id to
    document.  The [auth] middleware has put the user id of the token on
    the request before any of the code below runs.  What the object
    mapper decides on its own, the cast of the elements of an update and
    the validation of a document on [save], is taken as it comes
    ([Library]); a failed cast or validation throws, and the handlers
    answer from their [catch] branches.  Other failures of the store do
    not occur in a finite map.  The [addedAt] stamp of a collaborator
    entry, which no code reads, is not kept. *)

Record Doc : Type := mkDoc {
  doc_name : string;
  doc_access : Whiteboard;
  doc_drawingPaths : list (gmap string JVal);
  doc_stickyNotes : list (gmap string JVal);
  doc_lastModified : Z;
  doc_createdAt : Z
}.

(** The object mapper: the cast of one element of [drawingPaths] and of
    [stickyNotes] to its sub-document, as [findByIdAndUpdate] stores it
    ([Throw] when the element does not cast), and the validation that
    [save] runs on the whole document. *)
Record Library : Type := mkLibrary {
  cast_path : gmap string JVal -> result (gmap string JVal);
  cast_note : gmap string JVal -> result (gmap string JVal);
  validate : Doc -> bool
}.

(** The cast of an array, element by element. *)
Fixpoint cast_all (cast : gmap string JVal -> result (gmap string JVal))
  (l : list (gmap string JVal)) : result (list (gmap string JVal)) :=
  match l with
  | [] => Ok []
  | x :: l' =>
      match cast x with
      | Ok y =>
          match cast_all cast l' with
          | Ok ys => Ok (y :: ys)
          | Throw => Throw
          end
      | Throw => Throw
      end
  end.

(** The fields kept by the [select] of the listing. *)
Record Summary : Type := mkSummary {
  sm_name : string;
  sm_owner : UserId;
  sm_isPublic : bool;
  sm_lastModified : Z;
  sm_createdAt : Z
}.

Inductive Body : Type :=
| b_message (message : string)
| b_insufficient (required available : string)
| b_thrown
| b_board (id : string) (d : Doc)
| b_message_board (message : string) (id : string) (d : Doc)
| b_list (boards : gmap string Summary).

Record Response : Type := mkResponse {
  res_status : nat;
  res_body : Body
}.

(** Outcome of the middleware: [next()] with [req.userRole] and
    [req.whiteboard] set, or a response. *)
Inductive Checked : Type :=
| next (userRole : string) (whiteboard : Doc)
| refused (res : Response).

(** The [permissions] table of the middleware; a level that is not a key
    of the table makes [.includes] throw. *)
Definition permissions (level : string) : option (list string) :=
  if bool_decide (level = "view") then Some ["view"]
  else if bool_decide (level = "edit") then Some ["view"; "edit"]
  else if bool_decide (level = "admin") then Some ["view"; "edit"; "admin"]
  else None.

Definition public_or_403 (requiredPermission : string) (d : Doc)
  (collaborator : option Collaborator) : Checked :=
  if wb_isPublic (doc_access d) && bool_decide (requiredPermission = "view")
  then next "viewer" d
  else refused (mkResponse 403
         (b_insufficient requiredPermission
            (match collaborator with
             | Some c => c_permission c
             | None => "none"
             end))).

Definition checkPermissions (requiredPermission : string)
  (store : gmap string Doc) (id : string) (userId : UserId) : Checked :=
  match store !! id with
  | None => refused (mkResponse 404 (b_message "Whiteboard not found"))
  | Some whiteboard =>
    if bool_decide (wb_owner (doc_access whiteboard) = userId) then
      next "owner" whiteboard
    else
      let collaborator :=
        find_collaborator userId (wb_collaborators (doc_access whiteboard)) in
      match collaborator with
      | Some c =>
        match permissions (c_permission c) with
        | None =>
            refused (mkResponse 500
                       (b_message "Server error during permission check"))
        | Some allowed =>
            if bool_decide (requiredPermission ∈ allowed) then
              next (c_permission c) whiteboard
            else public_or_403 requiredPermission whiteboard collaborator
        end
      | None => public_or_403 requiredPermission whiteboard collaborator
      end
  end.

(** *** Routes *)

Inductive Request : Type :=
| GET_list
| GET_board (id : string)
| POST_board (id name : option string)
| PUT_board (id : string)
            (drawingPaths stickyNotes : option (list (gmap string JVal)))
| DELETE_board (id : string)
| POST_collaborator (id : string) (email permission : option string)
| DELETE_collaborator (id : string) (userId : UserId)
| PUT_visibility (id : string).

(** The [$or] of the listing query. *)
Definition listed (userId : UserId) (d : Doc) : bool :=
  bool_decide (wb_owner (doc_access d) = userId)
  || bool_decide (userId ∈ c_user <$> wb_collaborators (doc_access d))
  || wb_isPublic (doc_access d).

Definition summary (d : Doc) : Summary :=
  mkSummary (doc_name d) (wb_owner (doc_access d))
            (wb_isPublic (doc_access d)) (doc_lastModified d)
            (doc_createdAt d).

(** The boards of the listing; their order (latest change first) is not
    represented. *)
Definition list_boards (store : gmap string Doc) (userId : UserId)
  : gmap string Summary :=
  summary <$> filter (fun kv => listed userId kv.2 = true) store.

(** [a || b] on optional strings. *)
Definition or_default (o : option string) (d : string) : string :=
  if truthy o then default d o else d.

Definition create_board (now : Z) (store : gmap string Doc)
  (userId : UserId) (id name : option string)
  : gmap string Doc * Response :=
  match id with
  | Some i =>
    if negb (truthy (Some i)) then (store, mkResponse 400 b_thrown)
    else
      match store !! i with
      | Some _ =>
          (store, mkResponse 409
                    (b_message "Whiteboard with this ID already exists"))
      | None =>
          let d := mkDoc (or_default name "Untitled Whiteboard")
                         (mkWhiteboard userId [] false) [] [] now now in
          (<[i := d]> store, mkResponse 201 (b_board i d))
      end
  | None => (store, mkResponse 400 b_thrown)
  end.

(** [findByIdAndUpdate]: the update is cast first; a cast error is
    answered 400 from the [catch] branch and nothing is stored. *)
Definition update_board (lib : Library) (now : Z)
  (store : gmap string Doc) (id : string)
  (drawingPaths stickyNotes : option (list (gmap string JVal)))
  : gmap string Doc * Response :=
  match cast_all (cast_path lib) (default [] drawingPaths),
        cast_all (cast_note lib) (default [] stickyNotes) with
  | Ok paths, Ok notes =>
    match store !! id with
    | Some d =>
        let d' := mkDoc (doc_name d) (doc_access d) paths notes
                        now (doc_createdAt d) in
        (<[id := d']> store, mkResponse 200 (b_board id d'))
    | None => (store, mkResponse 404 (b_message "Whiteboard not found"))
    end
  | _, _ => (store, mkResponse 400 b_thrown)
  end.

Definition delete_board (store : gmap string Doc) (id : string)
  : gmap string Doc * Response :=
  match store !! id with
  | Some _ =>
      (delete id store,
       mkResponse 200 (b_message "Whiteboard deleted successfully"))
  | None => (store, mkResponse 404 (b_message "Whiteboard not found"))
  end.

Definition with_access (d : Doc) (wb : Whiteboard) : Doc :=
  mkDoc (doc_name d) wb (doc_drawingPaths d) (doc_stickyNotes d)
        (doc_lastModified d) (doc_createdAt d).

(** [await whiteboard.save()] and the answer after it: a document that
    does not validate throws, which the [catch] branch of the handler
    answers 500 with its own message, and nothing is stored. *)
Definition save (lib : Library) (store : gmap string Doc) (id : string)
  (d : Doc) (saved : Response) (failure : string)
  : gmap string Doc * Response :=
  if validate lib d then (<[id := d]> store, saved)
  else (store, mkResponse 500 (b_message failure)).

(** [existingCollaborator.permission = permission] on the first entry of
    the user. *)
Fixpoint update_first (uid : UserId) (permission : string)
  (cs : list Collaborator) : list Collaborator :=
  match cs with
  | [] => []
  | c :: cs' =>
      if bool_decide (c_user c = uid)
      then mkCollaborator (c_user c) permission :: cs'
      else c :: update_first uid permission cs'
  end.

Definition upsert_collaborator (uid : UserId) (permission : string)
  (cs : list Collaborator) : list Collaborator :=
  match find_collaborator uid cs with
  | Some _ => update_first uid permission cs
  | None => cs ++ [mkCollaborator uid permission]
  end.

Definition add_collaborator (lib : Library)
  (directory : string -> option UserId) (store : gmap string Doc)
  (userId : UserId) (id : string) (email permission : option string)
  : gmap string Doc * Response :=
  if negb (truthy email) || negb (truthy permission) then
    (store, mkResponse 400 (b_message "Email and permission are required"))
  else
    let level := default "" permission in
    if negb (bool_decide (level ∈ ["view"; "edit"; "admin"])) then
      (store, mkResponse 400 (b_message "Invalid permission level"))
    else
      match directory (default "" email) with
      | None => (store, mkResponse 404 (b_message "User not found"))
      | Some userToAdd =>
        if bool_decide (userToAdd = userId) then
          (store, mkResponse 400
                    (b_message "Cannot add yourself as collaborator"))
        else
          match store !! id with
          | None =>
              (store, mkResponse 404 (b_message "Whiteboard not found"))
          | Some d =>
              let wb := doc_access d in
              let d' := with_access d
                          (mkWhiteboard (wb_owner wb)
                             (upsert_collaborator userToAdd level
                                (wb_collaborators wb))
                             (wb_isPublic wb)) in
              save lib store id d'
                (mkResponse 200
                   (b_message_board "Collaborator added successfully" id d'))
                "Server error during collaborator addition"
          end
      end.

Definition remove_collaborator (lib : Library) (store : gmap string Doc)
  (id : string) (userId : UserId) : gmap string Doc * Response :=
  match store !! id with
  | None => (store, mkResponse 404 (b_message "Whiteboard not found"))
  | Some d =>
      let wb := doc_access d in
      let d' := with_access d
                  (mkWhiteboard (wb_owner wb)
                     (filter (fun collab => c_user collab ≠ userId)
                        (wb_collaborators wb))
                     (wb_isPublic wb)) in
      save lib store id d'
        (mkResponse 200
           (b_message_board "Collaborator removed successfully" id d'))
        "Server error during collaborator removal"
  end.

Definition toggle_visibility (lib : Library) (store : gmap string Doc)
  (id : string) : gmap string Doc * Response :=
  match store !! id with
  | None => (store, mkResponse 404 (b_message "Whiteboard not found"))
  | Some d =>
      let wb := doc_access d in
      let d' := with_access d
                  (mkWhiteboard (wb_owner wb) (wb_collaborators wb)
                     (negb (wb_isPublic wb))) in
      save lib store id d'
        (mkResponse 200
           (b_message_board
              ("Whiteboard is now " +:+
               (if wb_isPublic (doc_access d') then "public" else "private"))
              id d'))
        "Server error during visibility update"
  end.

(** A route behind [checkPermissions(required)]. *)
Definition guarded (requiredPermission : string) (store : gmap string Doc)
  (id : string) (userId : UserId)
  (handler : Doc -> gmap string Doc * Response)
  : gmap string Doc * Response :=
  match checkPermissions requiredPermission store id userId with
  | next _ whiteboard => handler whiteboard
  | refused res => (store, res)
  end.

(** The router: [lib] is the object mapper, [directory] the lookup of a
    user by e-mail, [now] the clock, [userId] the authenticated user. *)
Definition route (lib : Library) (directory : string -> option UserId)
  (now : Z) (store : gmap string Doc) (userId : UserId) (rq : Request)
  : gmap string Doc * Response :=
  match rq with
  | GET_list => (store, mkResponse 200 (b_list (list_boards store userId)))
  | GET_board id =>
      guarded "view" store id userId
        (fun whiteboard => (store, mkResponse 200 (b_board id whiteboard)))
  | POST_board id name => create_board now store userId id name
  | PUT_board id drawingPaths stickyNotes =>
      guarded "edit" store id userId
        (fun _ => update_board lib now store id drawingPaths stickyNotes)
  | DELETE_board id =>
      guarded "admin" store id userId (fun _ => delete_board store id)
  | POST_collaborator id email permission =>
      guarded "admin" store id userId
        (fun _ =>
           add_collaborator lib directory store userId id email permission)
  | DELETE_collaborator id uid =>
      guarded "admin" store id userId
        (fun _ => remove_collaborator lib store id uid)
  | PUT_visibility id =>
      guarded "admin" store id userId
        (fun _ => toggle_visibility lib store id)
  end.

(** One call of the API and the store after a sequence of calls. *)
Record Call : Type := mkCall {
  call_library : Library;
  call_directory : string -> option UserId;
  call_now : Z;
  call_user : UserId;
  call_request : Request
}.

Definition serve (store : gmap string Doc) (c : Call)
  : gmap string Doc * Response :=
  route (call_library c) (call_directory c) (call_now c) store
        (call_user c) (call_request c).

Definition serve_all (store : gmap string Doc) (cs : list Call)
  : gmap string Doc :=
  foldl (fun s c => fst (serve s c)) store cs.

(** ** The production server ([server-prod.js])

    The handshake middleware [io.use] verifies the token once, before any
    handler is registered, and puts the user id and the role of the token
    on the socket; the join handler then takes no token.  The [drawing],
    [cursor-move] and [disconnect] handlers are those of [server.js]. *)




(** ** Further specification-side definitions *)

(** The connection an input arrives on. *)
Definition acting_socket (i : Input) : SocketId :=
  match i with
  | connection sid | join_whiteboard sid _ _ | edit sid _ _
  | clear_board sid _ | cursor_move sid _ | disconnect sid => sid
  end.

(** The five messages with which a join can fail. *)
Definition join_errors : list string :=
  ["Authentication required"; "User not found"; "Whiteboard not found";
   "Access denied"; "Failed to join whiteboard"].

Definition is_error (ev : OutEvent) : bool :=
  match ev with
  | error _ => true
  | _ => false
  end.

Definition is_room_info (ev : OutEvent) : bool :=
  match ev with
  | room_info _ _ _ _ => true
  | _ => false
  end.

Definition is_relay (ev : OutEvent) : bool :=
  match ev with
  | relay _ _ => true
  | _ => false
  end.

(** The levels of the schema of a collaborator entry. *)
Definition valid_level (p : string) : Prop :=
  p = "view" \/ p = "edit" \/ p = "admin".

(** What every route keeps true of a board: levels of the schema, and at
    most one entry per user. *)
Definition well_formed (wb : Whiteboard) : Prop :=
  Forall (fun c => valid_level (c_permission c)) (wb_collaborators wb) /\
  NoDup (c_user <$> wb_collaborators wb).

Definition store_ok (store : gmap string Doc) : Prop :=
  forall id d, store !! id = Some d -> well_formed (doc_access d).

(** The middleware lets the request through. *)
Definition passes (c : Checked) : Prop :=
  match c with
  | next _ _ => True
  | refused _ => False
  end.

(** The gate a request has to pass, with the board it is checked on, and
    the board a request is about. *)
Definition gate_of (rq : Request) : option (string * string) :=
  match rq with
  | GET_list | POST_board _ _ => None
  | GET_board id => Some ("view", id)
  | PUT_board id _ _ => Some ("edit", id)
  | DELETE_board id | POST_collaborator id _ _
  | DELETE_collaborator id _ | PUT_visibility id => Some ("admin", id)
  end.

Definition target_of (rq : Request) : option string :=
  match rq with
  | GET_list => None
  | POST_board id _ => id
  | GET_board id | PUT_board id _ _ | DELETE_board id
  | POST_collaborator id _ _ | DELETE_collaborator id _
  | PUT_visibility id => Some id
  end.

(** A session as a join leaves it: untouched, or carrying the role and
    canEdit of some access decision. *)
Definition decided (s : Socket) : Prop :=
  s = new_socket \/
  exists wb uid role canEdit,
    join_permission wb uid = Some (role, canEdit) /\
    s_userRole s = Some role /\ s_canEdit s = Some canEdit.

(** Cy joins Ann and Bob in [D-team]. *)
Definition three_in_team : list Input :=
  (two_in_team
   ++ [connection "s-cy"; join_as "s-cy" "u-cy" "D-team"])%list.

(** ** A small store used in the examples *)

Definition demo_directory (email : string) : option UserId :=
  if bool_decide (email = "bob@example.org") then Some "u-bob"
  else if bool_decide (email = "cy@example.org") then Some "u-cy"
  else if bool_decide (email = "eve@example.org") then Some "u-eve"
  else None.

(** An object mapper that stores the elements as they come and asks of a
    document that each of its notes has an [id]. *)
Definition demo_library : Library :=
  mkLibrary Ok Ok
    (fun d => forallb (fun note => bool_decide (is_Some (note !! "id")))
                      (doc_stickyNotes d)).

Definition call_as (userId : UserId) (rq : Request) : Call :=
  mkCall demo_library demo_directory 0 userId rq.

(** Ann creates the two boards of the deployment above through the API. *)
Definition demo_calls : list Call :=
  [call_as "u-ann" (POST_board (Some "D-team") (Some "Team"));
   call_as "u-ann" (POST_collaborator "D-team" (Some "bob@example.org")
                                      (Some "view"));
   call_as "u-ann" (POST_collaborator "D-team" (Some "cy@example.org")
                                      (Some "edit"));
   call_as "u-ann" (POST_collaborator "D-team" (Some "eve@example.org")
                                      (Some "admin"));
   call_as "u-ann" (POST_board (Some "D-open") None);
   call_as "u-ann" (PUT_visibility "D-open")].

Definition demo_store : gmap string Doc := serve_all ∅ demo_calls.

(** * Properties *)

(** ** Lemmas on the permission check *)

Lemma edit_or_admin_spec p :
  edit_or_admin p = true <-> p = "edit" \/ p = "admin".
Proof.
  unfold edit_or_admin. rewrite bool_decide_eq_true.
  rewrite !elem_of_cons, elem_of_nil. tauto.
Qed.

Lemma find_collaborator_none uid cs :
  find_collaborator uid cs = None <->
  Forall (fun c' => c_user c' ≠ uid) cs.
Proof.
  unfold find_collaborator. induction cs as [|c cs IH]; simpl.
  - split; [constructor | done].
  - case_bool_decide as Hc.
    + split; [done |]. intros HF. by inversion HF.
    + rewrite IH. split.
      * by constructor.
      * intros HF. by inversion HF.
Qed.

Lemma find_collaborator_first uid before c after :
  Forall (fun c' => c_user c' ≠ uid) before ->
  c_user c = uid ->
  find_collaborator uid (before ++ c :: after) = Some c.
Proof.
  unfold find_collaborator. intros HF Hc.
  induction HF as [|c' l Hc' _ IH]; simpl.
  - by rewrite bool_decide_eq_true_2.
  - by rewrite bool_decide_eq_false_2.
Qed.

Lemma find_collaborator_split uid cs c :
  find_collaborator uid cs = Some c ->
  exists before after,
    cs = (before ++ c :: after)%list /\
    Forall (fun c' => c_user c' ≠ uid) before /\ c_user c = uid.
Proof.
  unfold find_collaborator. induction cs as [|c0 cs IH]; simpl; [done |].
  case_bool_decide as Hc.
  - intros [= ->]. exists [], cs. by repeat split.
  - intros Hf. destruct (IH Hf) as (before & after & -> & HF & Hu).
    exists (c0 :: before), after. repeat split; [| done].
    by constructor.
Qed.

Lemma join_permission_resolves wb uid :
  resolves wb uid (join_permission wb uid).
Proof.
  unfold join_permission. case_bool_decide as Ho.
  - by constructor.
  - destruct (find_collaborator uid (wb_collaborators wb)) as [c|] eqn:Hf.
    + destruct (find_collaborator_split _ _ _ Hf) as (b & a & Hcs & HF & Hu).
      eapply resolves_collaborator; eauto using edit_or_admin_spec.
    + apply find_collaborator_none in Hf.
      destruct (wb_isPublic wb) eqn:Hp; by constructor.
Qed.

Lemma resolves_join_permission wb uid r :
  resolves wb uid r -> r = join_permission wb uid.
Proof.
  unfold join_permission. intros Hr.
  destruct Hr as [Ho | b c a ce Ho Hcs HF Hu Hce | Ho HF Hp | Ho HF Hp].
  - by rewrite bool_decide_eq_true_2.
  - rewrite bool_decide_eq_false_2 by done.
    rewrite Hcs, (find_collaborator_first _ _ _ _ HF Hu).
    do 2 f_equal. pose proof (edit_or_admin_spec (c_permission c)) as He.
    destruct ce, (edit_or_admin (c_permission c)); try done.
    + symmetry. apply He, Hce. done.
    + apply Hce, He. done.
  - rewrite bool_decide_eq_false_2 by done.
    apply find_collaborator_none in HF. by rewrite HF, Hp.
  - rewrite bool_decide_eq_false_2 by done.
    apply find_collaborator_none in HF. by rewrite HF, Hp.
Qed.

Lemma on_join_reaches_check db st sid d user wb :
  reaches_check db d user wb ->
  on_join_whiteboard db st sid (Some d) =
    match join_permission wb (u_id user) with
    | Some (userRole, canEdit) =>
        enter_room st sid user (jd_whiteboardId d) userRole canEdit
    | None => join_failed st sid "Access denied"
    end.
Proof.
  intros (token & decoded & Ht & Hne & Hj & Hu & Hw).
  unfold on_join_whiteboard. rewrite Ht. simpl.
  rewrite bool_decide_eq_false_2 by done. simpl.
  by rewrite Hj, Hu, Hw.
Qed.

(** ** C1: the access decision of a join *)

(** C1 (as amended).  For every access record and user that reach the
    permission check of a join, the decision follows the precedence
    owner, first collaborator entry, public, denied: the owner gets role
    [owner] and may edit; a collaborator gets the permission level of
    the entry and may edit iff that level is [edit] or [admin]; a
    visitor of a public board gets role [viewer] and may not edit;
    anyone else is refused with [Access denied].  The decision is the
    only outcome the precedence allows, whatever the hub and the socket:
    it is what the join stores on the session and reports in the room
    info. *)
Theorem C1_join_decision db st sid d user wb :
  reaches_check db d user wb ->
  let decision := join_permission wb (u_id user) in
  resolves wb (u_id user) decision /\
  (forall r, resolves wb (u_id user) r -> r = decision) /\
  match decision with
  | Some (role, canEdit) =>
      exists st' notices users socket',
        on_join_whiteboard db st sid (Some d) =
          (st', (notices ++ [(sid, room_info (jd_whiteboardId d) users
                                             role canEdit)])%list) /\
        sockets st' !! sid = Some socket' /\
        s_userRole socket' = Some role /\
        s_canEdit socket' = Some canEdit
  | None =>
      on_join_whiteboard db st sid (Some d) =
        (st, [(sid, error "Access denied")])
  end.
Proof.
  intros Hreach decision. split; [apply join_permission_resolves |].
  split; [apply resolves_join_permission |].
  rewrite (on_join_reaches_check _ _ _ _ _ _ Hreach).
  subst decision. destruct (join_permission wb (u_id user)) as [[role ce]|].
  - unfold enter_room. eexists _, _, _, _. split; [reflexivity |].
    simpl. by rewrite lookup_insert_eq.
  - done.
Qed.

Lemma demo_reaches_check uid wid wb :
  uid ∈ ["u-ann"; "u-bob"; "u-cy"; "u-eve"; "u-dan"] ->
  Whiteboard_findById demo_db wid = Ok (Some wb) ->
  reaches_check demo_db (mkJoinData wid (Some uid))
    (mkUser uid ("name of " +:+ uid)) wb.
Proof.
  intros Hin Hwb. exists uid, uid. simpl.
  rewrite (bool_decide_eq_true_2 _ Hin).
  repeat split; try done.
  - intros ->. rewrite !elem_of_cons, elem_of_nil in Hin.
    by destruct Hin as [|[|[|[|[|]]]]].
  - rewrite bool_decide_eq_false_2; [done |]. intros ->.
    rewrite !elem_of_cons, elem_of_nil in Hin.
    by destruct Hin as [|[|[|[|[|]]]]].
Qed.

(** Cy holds the level [edit] on [D-team]. *)
Lemma C1_join_decision_witness :
  join_permission board_team "u-cy" = Some ("edit", true) /\
  exists st' notices users socket',
    on_join_whiteboard demo_db empty_hub "s-cy"
      (Some (mkJoinData "D-team" (Some "u-cy"))) =
      (st', (notices ++ [("s-cy", room_info "D-team" users "edit" true)])%list)
    /\ sockets st' !! "s-cy" = Some socket' /\
    s_userRole socket' = Some "edit" /\ s_canEdit socket' = Some true.
Proof.
  split; [reflexivity |].
  assert (reaches_check demo_db (mkJoinData "D-team" (Some "u-cy"))
            (mkUser "u-cy" ("name of " +:+ "u-cy")) board_team) as Hr.
  { apply demo_reaches_check; [| reflexivity].
    rewrite !elem_of_cons. tauto. }
  exact (proj2 (proj2 (C1_join_decision demo_db empty_hub "s-cy" _ _ _ Hr))).
Defined.

(** C1 (as stated) fails for the visitor of a public board: the role is
    the string [viewer], which no collaborator level equals, and not
    [view]. *)
Lemma C1_public_role_counterexample :
  wb_owner board_open ≠ "u-dan" /\
  Forall (fun c => c_user c ≠ "u-dan") (wb_collaborators board_open) /\
  wb_isPublic board_open = true /\
  join_permission board_open "u-dan" = Some ("viewer", false) /\
  join_permission board_open "u-dan" ≠ Some ("view", false) /\
  snd (on_join_whiteboard demo_db empty_hub "s-dan"
         (Some (mkJoinData "D-open" (Some "u-dan")))) =
    [("s-dan",
      room_info "D-open"
        [mkUserInfo "s-dan" (Some "name of u-dan") (Some "viewer")]
        "viewer" false)].
Proof.
  repeat split; try done; try constructor.
Qed.

(** ** Lemmas on the room adapter *)

Lemma elem_of_set_add x y l : x ∈ set_add y l <-> x = y \/ x ∈ l.
Proof.
  unfold set_add. case_bool_decide as Hy.
  - split; [by right | intros [-> | ?]; done].
  - rewrite elem_of_app, list_elem_of_singleton. tauto.
Qed.

Lemma NoDup_set_add y l : NoDup l -> NoDup (set_add y l).
Proof.
  intros Hl. unfold set_add. case_bool_decide as Hy; [done |].
  apply NoDup_app. split_and!; [done | | apply NoDup_singleton].
  intros x Hx ->%list_elem_of_singleton. done.
Qed.

Lemma elem_of_set_delete x y l : x ∈ set_delete y l <-> x ∈ l /\ x ≠ y.
Proof. unfold set_delete. rewrite list_elem_of_filter. tauto. Qed.

Lemma NoDup_set_delete y l : NoDup l -> NoDup (set_delete y l).
Proof. apply NoDup_filter. Qed.

Lemma not_elem_of_set_delete y l : y ∉ set_delete y l.
Proof. rewrite elem_of_set_delete. tauto. Qed.

Lemma members_socket_join ss sid r rs r' :
  members (mkHub ss (socket_join sid r rs)) r' =
    if bool_decide (r' = r) then set_add sid (default [] (rs !! r))
    else default [] (rs !! r').
Proof.
  unfold members, socket_join. simpl. case_bool_decide as Hr.
  - subst. by rewrite lookup_insert_eq.
  - by rewrite lookup_insert_ne.
Qed.

Lemma lookup_leave_all sid rs r l :
  leave_all sid rs !! r = Some l ->
  exists l0, rs !! r = Some l0 /\ l = set_delete sid l0.
Proof.
  unfold leave_all. rewrite lookup_omap.
  destruct (rs !! r) as [l0|]; simpl; [| done].
  destruct (set_delete sid l0) eqn:Hd; [done |].
  intros [= <-]. eauto.
Qed.

Lemma members_leave_all ss ss' sid rs r :
  members (mkHub ss (leave_all sid rs)) r =
    set_delete sid (members (mkHub ss' rs) r).
Proof.
  unfold members, leave_all. simpl. rewrite lookup_omap.
  destruct (rs !! r) as [l0|]; simpl; [| done].
  by destruct (set_delete sid l0).
Qed.

Lemma members_close_socket st sid r :
  members (close_socket st sid) r = set_delete sid (members st r).
Proof. unfold close_socket. destruct st. apply members_leave_all. Qed.

Lemma elem_of_to_emit st sender r ev m :
  m ∈ to_emit st sender (Some r) ev <->
  exists x, m = (x, ev) /\ x ∈ members st r /\ x ≠ sender.
Proof.
  unfold to_emit. rewrite list_elem_of_fmap.
  by setoid_rewrite elem_of_set_delete.
Qed.

(** With every member connected, the filter of the snapshot drops
    nothing. *)
Lemma snapshot_ids_members st r :
  (forall m, m ∈ members st r -> is_Some (sockets st !! m)) ->
  snapshot_ids st r = members st r.
Proof.
  unfold snapshot_ids, usersInRoom, members.
  destruct (rooms st !! r) as [l|]; simpl; [| done].
  induction l as [|m l IH]; intros Hc; [done |].
  destruct (Hc m) as [s Hs]; [left |].
  simpl. rewrite Hs. simpl. f_equal.
  apply IH. intros m' Hm'. apply Hc. by right.
Qed.

Lemma usersInRoom_entry st r u :
  u ∈ usersInRoom st r ->
  ui_socketId u ∈ members st r /\
  exists s, sockets st !! ui_socketId u = Some s /\
            ui_username u = s_username s /\ ui_userRole u = s_userRole s.
Proof.
  unfold usersInRoom, members.
  destruct (rooms st !! r) as [l|]; simpl; [| by intros ?%elem_of_nil].
  rewrite list_elem_of_omap. intros (m & Hm & Hu).
  destruct (sockets st !! m) as [s|] eqn:Hs; [| done].
  injection Hu as <-. simpl. eauto.
Qed.

(** ** The outcome of a join *)

Lemma on_join_cases db st sid data :
  (exists message,
     on_join_whiteboard db st sid data = join_failed st sid message) \/
  (exists d user wb userRole canEdit,
     data = Some d /\ reaches_check db d user wb /\
     join_permission wb (u_id user) = Some (userRole, canEdit) /\
     on_join_whiteboard db st sid data =
       enter_room st sid user (jd_whiteboardId d) userRole canEdit).
Proof.
  unfold on_join_whiteboard.
  destruct data as [d|]; [| left; eauto].
  destruct (jd_token d) as [token|] eqn:Ht; [| left; eauto].
  simpl. case_bool_decide as He; simpl; [left; eauto |].
  destruct (jwt_verify db token) as [decoded|] eqn:Hj; [| left; eauto].
  destruct (User_findById db decoded) as [[user|]|] eqn:Hu;
    [| left; eauto..].
  destruct (Whiteboard_findById db (jd_whiteboardId d)) as [[wb|]|] eqn:Hw;
    [| left; eauto..].
  destruct (join_permission wb (u_id user)) as [[role ce]|] eqn:Hp;
    [| left; eauto].
  right. exists d, user, wb, role, ce. split_and!; try done.
  by exists token, decoded.
Qed.

Lemma got_room_info_app sid r out1 out2 :
  got_room_info sid r (out1 ++ out2) =
    got_room_info sid r out1 || got_room_info sid r out2.
Proof. apply existsb_app. Qed.

Lemma got_room_info_to_emit sid r st sender room ev :
  (forall r' us role ce, ev ≠ room_info r' us role ce) ->
  got_room_info sid r (to_emit st sender room ev) = false.
Proof.
  intros Hev. unfold to_emit, got_room_info.
  destruct room as [r0|]; [| done].
  destruct ev; try (by edestruct Hev);
    by induction (set_delete sender (members st r0)).
Qed.

Lemma got_room_info_enter_room sid r st sid' user wid role ce :
  got_room_info sid r (snd (enter_room st sid' user wid role ce)) =
    bool_decide (sid' = sid) && bool_decide (wid = r).
Proof.
  unfold enter_room. cbn [snd]. rewrite got_room_info_app.
  rewrite got_room_info_to_emit by done. simpl. by rewrite orb_false_r.
Qed.

(** ** Invariants of the reachable hubs *)

Lemma empty_hub_inv : hub_inv empty_hub.
Proof. split; simpl; intros *; by rewrite lookup_empty. Qed.

Lemma lookup_socket_join sid wid rs r l :
  socket_join sid wid rs !! r = Some l ->
  l = set_add sid (default [] (rs !! wid)) /\ r = wid \/
  rs !! r = Some l /\ r ≠ wid.
Proof.
  unfold socket_join. rewrite lookup_insert. case_decide.
  - intros [= <-]. by left.
  - by right.
Qed.

Lemma connection_inv st sid :
  hub_inv st ->
  hub_inv (mkHub (<[sid := new_socket]> (sockets st))
                 (socket_join sid sid (rooms st))).
Proof.
  intros [Hnd Hco Hca Hfr Hfi]. split; cbn [sockets rooms].
  - intros r l [[-> ->] | [Hr _]]%lookup_socket_join; [| by eapply Hnd].
    apply NoDup_set_add.
    destruct (rooms st !! sid) eqn:Hw; simpl; [by eapply Hnd | constructor].
  - intros r l m [[-> ->] | [Hr _]]%lookup_socket_join Hm;
      rewrite lookup_insert_is_Some'; [| by eauto].
    apply elem_of_set_add in Hm as [-> | Hm]; [by left | right].
    destruct (rooms st !! sid) eqn:Hw; simpl in Hm.
    + by eapply Hco.
    + by apply elem_of_nil in Hm.
  - intros sid0 s r. rewrite lookup_insert. case_decide as Hs.
    + by intros [= <-].
    + intros Hs0 Hr. rewrite members_socket_join. case_bool_decide; subst.
      * apply elem_of_set_add. right. by eapply Hca.
      * by eapply Hca.
  - intros sid0 s. rewrite lookup_insert. case_decide.
    + by intros [= <-].
    + apply Hfr.
  - intros sid0 s r. rewrite lookup_insert. case_decide.
    + by intros [= <-].
    + apply Hfi.
Qed.

Lemma enter_room_inv st sid user wid role ce :
  hub_inv st -> hub_inv (fst (enter_room st sid user wid role ce)).
Proof.
  intros [Hnd Hco Hca Hfr Hfi]. unfold enter_room. cbn [fst].
  set (socket' := mkSocket _ _ _ _ _).
  assert (forall r l, socket_join sid wid (rooms st) !! r = Some l ->
            l = set_add sid (members st wid) /\ r = wid \/
            rooms st !! r = Some l /\ r ≠ wid) as Hlook.
  { intros r l. unfold socket_join. rewrite lookup_insert. case_decide.
    - intros [= <-]. by left.
    - by right. }
  split; cbn [sockets rooms].
  - intros r l [[-> ->] | [Hr _]]%Hlook; [| by eapply Hnd].
    apply NoDup_set_add. unfold members.
    destruct (rooms st !! wid) eqn:Hw; simpl; [by eapply Hnd | constructor].
  - intros r l m [[-> ->] | [Hr _]]%Hlook Hm;
      rewrite lookup_insert_is_Some'; [| by eauto].
    apply elem_of_set_add in Hm as [-> | Hm]; [by left | right].
    unfold members in Hm. destruct (rooms st !! wid) eqn:Hw; simpl in Hm.
    + by eapply Hco.
    + by apply elem_of_nil in Hm.
  - intros sid0 s r. rewrite lookup_insert. case_decide as Hs.
    + intros [= <-] [= <-]. subst sid0. rewrite members_socket_join.
      rewrite bool_decide_eq_true_2 by done. apply elem_of_set_add. by left.
    + intros Hs0 Hr. rewrite members_socket_join. case_bool_decide; subst.
      * apply elem_of_set_add. right. by eapply Hca.
      * by eapply Hca.
  - intros sid0 s. rewrite lookup_insert. case_decide.
    + by intros [= <-].
    + apply Hfr.
  - intros sid0 s r. rewrite lookup_insert. case_decide.
    + intros [= <-] _. simpl. eauto.
    + apply Hfi.
Qed.

Lemma close_socket_inv st sid : hub_inv st -> hub_inv (close_socket st sid).
Proof.
  intros [Hnd Hco Hca Hfr Hfi]. split; cbn [close_socket sockets rooms].
  - intros r l (l0 & Hr & ->)%lookup_leave_all.
    apply NoDup_set_delete. by eapply Hnd.
  - intros r l m (l0 & Hr & ->)%lookup_leave_all [Hm Hne]%elem_of_set_delete.
    rewrite lookup_delete_ne by done. by eapply Hco.
  - intros sid0 s r. rewrite lookup_delete. case_decide; [done |].
    intros Hs Hr. rewrite members_close_socket. apply elem_of_set_delete.
    split; [by eapply Hca | done].
  - intros sid0 s. rewrite lookup_delete. case_decide; [done |]. apply Hfr.
  - intros sid0 s r. rewrite lookup_delete. case_decide; [done |]. apply Hfi.
Qed.

Lemma on_join_inv db st sid data :
  hub_inv st -> hub_inv (fst (on_join_whiteboard db st sid data)).
Proof.
  intros Hinv.
  destruct (on_join_cases db st sid data)
    as [[msg ->] | (d & user & wb & role & ce & _ & _ & _ & ->)].
  - done.
  - by apply enter_room_inv.
Qed.

Lemma step_inv st i : hub_inv st -> hub_inv (fst (step st i)).
Proof.
  intros Hinv. destruct i as [sid|sid data db|sid e data|sid data|sid data|sid];
    simpl; destruct (sockets st !! sid) as [socket|] eqn:Hs; try done.
  - by apply connection_inv.
  - by apply on_join_inv.
  - unfold on_edit. by destruct (negb _).
  - unfold on_clear_board. by destruct (negb _).
  - unfold on_cursor_move. by destruct (truthy _).
  - by apply close_socket_inv.
Qed.

Lemma run_from_snoc st tr i :
  run_from st (tr ++ [i]) = fst (step (run_from st tr) i).
Proof. unfold run_from. by rewrite foldl_snoc. Qed.

Lemma run_from_inv st tr : hub_inv st -> hub_inv (run_from st tr).
Proof.
  revert st. induction tr as [|i tr IH]; intros st Hinv; [done |].
  simpl. apply IH. by apply step_inv.
Qed.

Lemma run_inv tr : hub_inv (run tr).
Proof. apply run_from_inv, empty_hub_inv. Qed.

Lemma inv_members_connected st r m :
  hub_inv st -> m ∈ members st r -> is_Some (sockets st !! m).
Proof.
  intros Hinv. unfold members.
  destruct (rooms st !! r) as [l|] eqn:Hr; simpl.
  - by eapply inv_connected.
  - by intros ?%elem_of_nil.
Qed.

Lemma inv_members_nodup st r : hub_inv st -> NoDup (members st r).
Proof.
  intros Hinv. unfold members.
  destruct (rooms st !! r) as [l|] eqn:Hr; simpl.
  - by eapply inv_nodup.
  - constructor.
Qed.

(** ** Membership against the history of a run *)

Lemma members_enter_room st sid user wid role ce r :
  members (fst (enter_room st sid user wid role ce)) r =
    if bool_decide (r = wid) then set_add sid (members st wid)
    else members st r.
Proof. unfold enter_room. cbn [fst]. apply members_socket_join. Qed.

Lemma got_room_info_on_edit sid r e st sid' socket data :
  got_room_info sid r (snd (on_edit e st sid' socket data)) = false.
Proof.
  unfold on_edit. destruct (negb _); [done |].
  by apply got_room_info_to_emit.
Qed.

Lemma got_room_info_on_clear_board sid r st sid' socket data :
  got_room_info sid r (snd (on_clear_board st sid' socket data)) = false.
Proof.
  unfold on_clear_board. destruct (negb _); [done |].
  by apply got_room_info_to_emit.
Qed.

Lemma got_room_info_on_cursor_move sid r st sid' socket data :
  got_room_info sid r (snd (on_cursor_move st sid' socket data)) = false.
Proof.
  unfold on_cursor_move. destruct (truthy _); [| done].
  by apply got_room_info_to_emit.
Qed.

Lemma got_room_info_on_disconnect sid r st sid' socket :
  got_room_info sid r (on_disconnect st sid' socket) = false.
Proof.
  unfold on_disconnect. destruct (truthy _); [| done].
  by apply got_room_info_to_emit.
Qed.

Lemma handlers_keep_hub st i :
  match i with
  | edit _ _ _ | clear_board _ _ | cursor_move _ _ => fst (step st i) = st
  | _ => True
  end.
Proof.
  destruct i as [sid|sid data db|sid e data|sid data|sid data|sid];
    try done; simpl; destruct (sockets st !! sid); try done.
  - unfold on_edit. by destruct (negb _).
  - unfold on_clear_board. by destruct (negb _).
  - unfold on_cursor_move. by destruct (truthy _).
Qed.

(** An input on another connection leaves a connection as it was. *)
Lemma step_other st i b :
  b ≠ acting_socket i ->
  sockets (fst (step st i)) !! b = sockets st !! b /\
  (forall r, b ∈ members (fst (step st i)) r <-> b ∈ members st r).
Proof.
  intros Hb.
  destruct i as [sid|sid data db|sid e data|sid data|sid data|sid];
    cbn [acting_socket] in Hb.
  - unfold step. destruct (sockets st !! sid); cbn [fst]; [done |].
    cbn [sockets]. split; [by rewrite lookup_insert_ne |].
    intros r. rewrite members_socket_join. case_bool_decide; [| done].
    subst. rewrite elem_of_set_add. split; [by intros [-> | ?] | by right].
  - unfold step. destruct (sockets st !! sid); [| done].
    destruct (on_join_cases db st sid data)
      as [[msg ->] | (d & user & wb & role & ce & _ & _ & _ & ->)];
      [done |].
    split.
    + unfold enter_room. cbn [fst sockets]. by rewrite lookup_insert_ne.
    + intros r. rewrite members_enter_room. case_bool_decide; [| done].
      subst. rewrite elem_of_set_add. split; [by intros [-> | ?] | by right].
  - by pose proof (handlers_keep_hub st (edit sid e data)) as ->.
  - by pose proof (handlers_keep_hub st (clear_board sid data)) as ->.
  - by pose proof (handlers_keep_hub st (cursor_move sid data)) as ->.
  - unfold step. destruct (sockets st !! sid); cbn [fst]; [| done]. split.
    + unfold close_socket. cbn [sockets]. by rewrite lookup_delete_ne.
    + intros r. rewrite members_close_socket, elem_of_set_delete.
      split; [by intros [? _] | by split].
Qed.

(** The join handler lets a request in exactly when the lookups do. *)
Lemma on_join_by_target db st sid data :
  match join_target db data with
  | Some r =>
      exists user role ce,
        on_join_whiteboard db st sid data = enter_room st sid user r role ce
  | None =>
      exists message,
        on_join_whiteboard db st sid data = join_failed st sid message
  end.
Proof.
  unfold join_target, on_join_whiteboard.
  destruct data as [d|]; [| by eexists].
  destruct (jd_token d) as [token|]; [| by eexists].
  cbn [truthy]. case_bool_decide; cbn [negb]; [by eexists |].
  destruct (jwt_verify db token) as [decoded|]; [| by eexists].
  destruct (User_findById db decoded) as [[user|]|]; [| by eexists..].
  destruct (Whiteboard_findById db (jd_whiteboardId d)) as [[wb|]|];
    [| by eexists..].
  destruct (join_permission wb (u_id user)) as [[role ce]|].
  - rewrite bool_decide_eq_true_2 by eauto. by eexists _, _, _.
  - rewrite bool_decide_eq_false_2 by (by intros [? ?]). by eexists.
Qed.

Lemma run_snoc tr i : run (tr ++ [i]) = fst (step (run tr) i).
Proof. apply run_from_snoc. Qed.

Lemma joined_rooms_snoc tr i sid :
  joined_rooms (tr ++ [i]) sid = record_input sid (joined_rooms tr sid) i.
Proof. unfold joined_rooms. by rewrite foldl_snoc. Qed.

Lemma record_input_other sid h i :
  acting_socket i ≠ sid -> record_input sid h i = h.
Proof.
  destruct i; cbn [acting_socket record_input]; intros Hne; try done;
    by rewrite bool_decide_eq_false_2.
Qed.

(** The socket table and the rooms against the history of the inputs: a
    connection id is in the table while its connection is open, and is a
    member of the rooms it was let into since, and of the room of its
    own id. *)
Lemma run_history tr sid :
  (joined_rooms tr sid = None <-> sockets (run tr) !! sid = None) /\
  (forall r, sid ∈ members (run tr) r <->
     exists rs, joined_rooms tr sid = Some rs /\ (r ∈ rs \/ r = sid)).
Proof.
  induction tr as [|i tr IH] using rev_ind.
  { split; [done |]. intros r. unfold members. simpl. rewrite lookup_empty.
    simpl. split; [by intros ?%elem_of_nil | by intros (? & ? & _)]. }
  rewrite run_snoc, joined_rooms_snoc.
  destruct IH as [Hc Hm]. set (st := run tr) in *.
  destruct (decide (acting_socket i = sid)) as [Heq | Hne].
  2: { rewrite record_input_other by done.
       destruct (step_other st i sid) as [-> Hmem]; [done |].
       split; [done |]. intros r. by rewrite Hmem. }
  destruct (joined_rooms tr sid) as [rs|] eqn:Hh;
    destruct (sockets st !! sid) as [socket|] eqn:Hs;
    try (by destruct Hc as [Hc1 Hc2]; first [specialize (Hc1 eq_refl)
                                           | specialize (Hc2 eq_refl)]).
  - (* the connection is open *)
    destruct i as [sid'|sid' data db|sid' e data|sid' data|sid' data|sid'];
      cbn [acting_socket] in Heq; subst sid'; cbn [record_input];
      rewrite ?(bool_decide_eq_true_2 (sid = sid)) by done.
    + unfold step. rewrite Hs. cbn [fst default from_option Datatypes.id].
      by rewrite Hs.
    + unfold step. rewrite Hs.
      pose proof (on_join_by_target db st sid data) as Hj.
      destruct (join_target db data) as [r0|].
      * destruct Hj as (user & role & ce & ->).
        cbn [fmap option_fmap option_map]. split.
        { unfold enter_room. cbn [fst sockets]. by rewrite lookup_insert_eq. }
        intros r. rewrite members_enter_room. case_bool_decide as Hr.
        -- subst r. rewrite elem_of_set_add. split; [| by left].
           intros _. exists (r0 :: rs). split; [done |]. left. by left.
        -- rewrite Hm. split.
           ++ intros (rs' & [= <-] & Hin). exists (r0 :: rs).
              split; [done |]. destruct Hin; [left; by right | by right].
           ++ intros (rs' & [= <-] & [Hin | ->]); exists rs;
                (split; [done |]); [| by right].
              apply elem_of_cons in Hin as [-> | Hin]; [done | by left].
      * destruct Hj as [msg ->]. cbn [join_failed fst]. by rewrite Hs.
    + pose proof (handlers_keep_hub st (edit sid e data)) as ->.
      by rewrite Hs.
    + pose proof (handlers_keep_hub st (clear_board sid data)) as ->.
      by rewrite Hs.
    + pose proof (handlers_keep_hub st (cursor_move sid data)) as ->.
      by rewrite Hs.
    + unfold step. rewrite Hs. cbn [fst]. split.
      * unfold close_socket. cbn [sockets]. by rewrite lookup_delete_eq.
      * intros r. rewrite members_close_socket. split.
        -- by intros ?%not_elem_of_set_delete.
        -- by intros (? & ? & _).
  - (* no connection of that id is open *)
    destruct i as [sid'|sid' data db|sid' e data|sid' data|sid' data|sid'];
      cbn [acting_socket] in Heq; subst sid'; cbn [record_input];
      rewrite ?(bool_decide_eq_true_2 (sid = sid)) by done.
    + unfold step. rewrite Hs. cbn [fst sockets default from_option].
      rewrite lookup_insert_eq. split; [done |]. intros r.
      rewrite members_socket_join. fold (members st sid).
      fold (members st r). case_bool_decide as Hr.
      * subst r. rewrite elem_of_set_add. split; [| by left].
        intros _. exists []. split; [done | by right].
      * rewrite Hm. split; [by intros (? & ? & _) |].
        intros (rs & [= <-] & [?%elem_of_nil | ?]); done.
    + unfold step. rewrite Hs. cbn [fst]. rewrite Hs.
      by destruct (join_target db data).
    + pose proof (handlers_keep_hub st (edit sid e data)) as ->.
      by rewrite Hs.
    + pose proof (handlers_keep_hub st (clear_board sid data)) as ->.
      by rewrite Hs.
    + pose proof (handlers_keep_hub st (cursor_move sid data)) as ->.
      by rewrite Hs.
    + unfold step. rewrite Hs. cbn [fst]. rewrite Hs. split; [done |].
      intros r. rewrite Hm. split; by intros (? & ? & _).
Qed.

Lemma joined_rooms_connection tr sid rs :
  joined_rooms tr sid = Some rs -> connection sid ∈ tr.
Proof.
  revert rs. induction tr as [|i tr IH] using rev_ind; intros rs; [done |].
  rewrite joined_rooms_snoc, elem_of_app, list_elem_of_singleton.
  destruct (joined_rooms tr sid) as [rs0|] eqn:Hh.
  { intros _. left. by eapply IH. }
  destruct i as [sid'|sid' data db| | | |sid']; cbn [record_input];
    try done.
  - case_bool_decide; [subst; by right | done].
  - case_bool_decide; [| done]. by destruct (join_target db data).
  - by case_bool_decide.
Qed.

Lemma joined_live_from_snoc st acc tr i r sid :
  joined_live_from st acc (tr ++ [i]) r sid =
    if got_room_info sid r (snd (step (run_from st tr) i)) then true
    else match i with
         | disconnect sid' =>
             if bool_decide (sid' = sid) then false
             else joined_live_from st acc tr r sid
         | _ => joined_live_from st acc tr r sid
         end.
Proof.
  revert st acc. induction tr as [|i0 tr IH]; intros st acc; [done |].
  cbn [app joined_live_from]. by rewrite IH.
Qed.

Lemma got_room_info_step_other st i r sid :
  acting_socket i ≠ sid -> got_room_info sid r (snd (step st i)) = false.
Proof.
  intros Hne.
  destruct i as [sid'|sid' data db|sid' e data|sid' data|sid' data|sid'];
    cbn [acting_socket] in Hne; unfold step;
    destruct (sockets st !! sid') as [socket|]; try done.
  - destruct (on_join_cases db st sid' data)
      as [[msg ->] | (d & user & wb & role & ce & _ & _ & _ & ->)]; [done |].
    rewrite got_room_info_enter_room.
    by rewrite (bool_decide_eq_false_2 (sid' = sid)).
  - apply got_room_info_on_edit.
  - apply got_room_info_on_clear_board.
  - apply got_room_info_on_cursor_move.
  - apply got_room_info_on_disconnect.
Qed.

(** The room cached on a session is one it was sent the room info of. *)
Lemma cached_room_joined_live tr sid s r :
  sockets (run tr) !! sid = Some s ->
  s_whiteboardId s = Some r ->
  joined_live tr r sid = true.
Proof.
  revert s. induction tr as [|i tr IH] using rev_ind; intros s.
  { simpl. by rewrite lookup_empty. }
  unfold joined_live. rewrite run_snoc, joined_live_from_snoc.
  fold (run tr). fold (joined_live tr r sid). set (st := run tr) in *.
  destruct (decide (acting_socket i = sid)) as [Heq | Hne].
  2: { destruct (step_other st i sid) as [-> _]; [done |].
       rewrite got_room_info_step_other by done. intros Hs Hr.
       destruct i as [| | | | |sid']; try by eapply IH.
       cbn [acting_socket] in Hne. rewrite bool_decide_eq_false_2 by done.
       by eapply IH. }
  destruct i as [sid'|sid' data db|sid' e data|sid' data|sid' data|sid'];
    cbn [acting_socket] in Heq; subst sid'.
  - unfold step. destruct (sockets st !! sid) as [socket|] eqn:Hs.
    + cbn [fst snd]. rewrite Hs. intros [= <-] Hr. by eapply IH.
    + cbn [fst snd sockets]. rewrite lookup_insert_eq. by intros [= <-].
  - unfold step. destruct (sockets st !! sid) as [socket|] eqn:Hs.
    + destruct (on_join_cases db st sid data)
        as [[msg ->] | (d & user & wb & role & ce & _ & _ & _ & ->)].
      * cbn [join_failed fst snd]. rewrite Hs. intros [= <-] Hr.
        by eapply IH.
      * rewrite got_room_info_enter_room. unfold enter_room.
        cbn [fst sockets]. rewrite lookup_insert_eq.
        intros [= <-] [= <-]. by rewrite !bool_decide_eq_true_2.
    + cbn [fst snd]. by rewrite Hs.
  - pose proof (handlers_keep_hub st (edit sid e data)) as ->.
    unfold step. intros Hs Hr. rewrite Hs, got_room_info_on_edit.
    by eapply IH.
  - pose proof (handlers_keep_hub st (clear_board sid data)) as ->.
    unfold step. intros Hs Hr. rewrite Hs, got_room_info_on_clear_board.
    by eapply IH.
  - pose proof (handlers_keep_hub st (cursor_move sid data)) as ->.
    unfold step. intros Hs Hr. rewrite Hs, got_room_info_on_cursor_move.
    by eapply IH.
  - unfold step. destruct (sockets st !! sid) as [socket|] eqn:Hs.
    + cbn [fst close_socket sockets]. by rewrite lookup_delete_eq.
    + cbn [fst]. by rewrite Hs.
Qed.

(** ** C6: the membership snapshot *)

(** C6 (as stated) fails in two ways.  Ann joins the board stored under
    the id [s-bob], the id of Bob's open connection: the snapshot of that
    room lists Bob's connection, without name or role, although Bob has
    sent no join at all.  And after Bob, a [view] collaborator of
    [D-team], has moved on to [D-open], the snapshot of [D-team] still
    lists Bob, now under the role [viewer] of the join of [D-open]. *)
Lemma C6_snapshot_counterexample :
  usersInRoom (run ann_joins_namesake) "s-bob" =
    [mkUserInfo "s-bob" None None;
     mkUserInfo "s-ann" (Some "name of u-ann") (Some "owner")] /\
  joined_live ann_joins_namesake "s-bob" "s-bob" = false /\
  entered ann_joins_namesake "s-bob" "s-bob" = false /\
  (forall data db,
     join_whiteboard "s-bob" data db ∉ ann_joins_namesake) /\
  usersInRoom (run (two_in_team ++ [bob_moves])) "D-team" =
    [mkUserInfo "s-ann" (Some "name of u-ann") (Some "owner");
     mkUserInfo "s-bob" (Some "name of u-bob") (Some "viewer")] /\
  join_permission board_team "u-bob" = Some ("view", false).
Proof.
  split_and!; try by vm_compute.
  intros data db. unfold ann_joins_namesake.
  rewrite !elem_of_cons, elem_of_nil. by intros [? | [? | [? | ?]]].
Qed.

(** C6 (as amended).  After every finite sequence of connections, joins,
    events and disconnects, the snapshot of a room lists, without
    duplicates, exactly the open connections that have been let into that
    room since they opened, whether or not they have joined another room
    afterwards, and the open connection whose id is the id of the room,
    if there is one.  So for a room whose id is not the id of a
    connection the snapshot lists exactly the connections let into it and
    not closed since.  Every entry carries the connection id, and the
    display name and role currently cached on that session. *)
Theorem C6_snapshot_lists_joined (tr : list Input) (r : RoomId) :
  NoDup (snapshot_ids (run tr) r) /\
  (forall sid,
     sid ∈ snapshot_ids (run tr) r <->
     entered tr r sid = true \/ (sid = r /\ is_Some (joined_rooms tr sid))) /\
  (connection r ∉ tr ->
   forall sid, sid ∈ snapshot_ids (run tr) r <-> entered tr r sid = true) /\
  (forall u, u ∈ usersInRoom (run tr) r ->
     exists s, sockets (run tr) !! ui_socketId u = Some s /\
               ui_username u = s_username s /\
               ui_userRole u = s_userRole s).
Proof.
  pose proof (run_inv tr) as Hinv.
  rewrite (snapshot_ids_members (run tr) r)
    by (intros m; by apply inv_members_connected).
  assert (forall sid,
            sid ∈ members (run tr) r <->
            entered tr r sid = true \/
            (sid = r /\ is_Some (joined_rooms tr sid))) as Hall.
  { intros sid. rewrite (proj2 (run_history tr sid) r). unfold entered.
    destruct (joined_rooms tr sid) as [rs|] eqn:Hh.
    - rewrite bool_decide_eq_true. split.
      + intros (rs' & [= <-] & [Hin | ->]); [by left | by right].
      + intros [Hin | [-> _]]; exists rs; (split; [done |]);
          [by left | by right].
    - split; [by intros (? & ? & _) | by intros [? | [_ []]]]. }
  split_and!.
  - by apply inv_members_nodup.
  - exact Hall.
  - intros Hr sid. rewrite Hall. split; [| by left].
    intros [Hin | [-> [rs Hh]]]; [done |].
    destruct Hr. by eapply joined_rooms_connection.
  - intros u Hu. by apply usersInRoom_entry in Hu as [_ Hu].
Qed.

(** After Bob's move, [D-team] still lists Bob. *)
Lemma C6_snapshot_lists_joined_witness :
  "s-bob" ∈ snapshot_ids (run (two_in_team ++ [bob_moves])) "D-team" <->
  entered (two_in_team ++ [bob_moves]) "D-team" "s-bob" = true.
Proof.
  assert (connection "D-team" ∉ (two_in_team ++ [bob_moves])%list) as Hr.
  { unfold two_in_team, bob_moves, join_as. cbn [app].
    rewrite !elem_of_cons, elem_of_nil.
    by intros [? | [? | [? | [? | [? | ?]]]]]. }
  exact (proj1 (proj2 (proj2 (C6_snapshot_lists_joined
                                (two_in_team ++ [bob_moves]) "D-team")))
               Hr "s-bob").
Defined.

(** ** C2: a second join *)

Lemma step_join_enters st sid socket d db user wb role canEdit :
  sockets st !! sid = Some socket ->
  reaches_check db d user wb ->
  join_permission wb (u_id user) = Some (role, canEdit) ->
  step st (join_whiteboard sid (Some d) db) =
    enter_room st sid user (jd_whiteboardId d) role canEdit.
Proof.
  intros Hs Hreach Hp. unfold step. rewrite Hs.
  by rewrite (on_join_reaches_check _ _ _ _ _ _ Hreach), Hp.
Qed.

(** C2 (as stated) fails: Bob's session, a member of [D-team], joins
    [D-open]; afterwards it is in the member sets of both rooms, the
    snapshot of [D-team] still lists it, and the only message of the
    second join is Bob's room info: Ann, who remains in [D-team],
    receives no departure notice. *)
Lemma C2_two_rooms_counterexample :
  "s-bob" ∈ members (run two_in_team) "D-team" /\
  members (run (two_in_team ++ [bob_moves])) "D-team" = ["s-ann"; "s-bob"] /\
  members (run (two_in_team ++ [bob_moves])) "D-open" = ["s-bob"] /\
  "D-team" ≠ "D-open" /\
  snd (step (run two_in_team) bob_moves) =
    [("s-bob",
      room_info "D-open"
        [mkUserInfo "s-bob" (Some "name of u-bob") (Some "viewer")]
        "viewer" false)].
Proof.
  split_and!.
  - apply (bool_decide_unpack _). by vm_compute.
  - by vm_compute.
  - by vm_compute.
  - done.
  - by vm_compute.
Qed.

(** C2 (as amended).  At every reachable state the room id cached on a
    session names a room whose member set contains the session, but a
    session can be in the member sets of several rooms.  When a session
    that is a member of room [r1] successfully processes a join for a
    different room [r2], it stays in the member set of [r1], which is
    unchanged, no departure notice is emitted, and it joins [r2] with
    the full join choreography: it is added to the member set of [r2],
    every other member of [r2] receives the arrival notice, the session
    receives the room info computed after admission, and its cached room
    id, role and canEdit become those of the new join. *)
Theorem C2_second_join_keeps_first_room
  (tr : list Input) (sid : SocketId) (r1 : RoomId) (d : JoinData)
  (db : Oracle) (user : User) (wb : Whiteboard) (role : string)
  (canEdit : bool) :
  sid ∈ members (run tr) r1 ->
  jd_whiteboardId d ≠ r1 ->
  reaches_check db d user wb ->
  join_permission wb (u_id user) = Some (role, canEdit) ->
  let st := run tr in
  let r2 := jd_whiteboardId d in
  let st' := fst (step st (join_whiteboard sid (Some d) db)) in
  let out := snd (step st (join_whiteboard sid (Some d) db)) in
  (forall tr0 sid0 s r, sockets (run tr0) !! sid0 = Some s ->
     s_whiteboardId s = Some r -> sid0 ∈ members (run tr0) r) /\
  members st' r1 = members st r1 /\ sid ∈ members st' r1 /\
  (forall m ev, (m, ev) ∈ out -> is_user_left ev = false) /\
  members st' r2 = set_add sid (members st r2) /\ sid ∈ members st' r2 /\
  out = (((fun m => (m, user_joined (u_id user) (u_username user) role sid))
            <$> set_delete sid (members st' r2))
         ++ [(sid, room_info r2 (usersInRoom st' r2) role canEdit)])%list /\
  sockets st' !! sid =
    Some (mkSocket (Some (u_id user)) (Some (u_username user)) (Some role)
                   (Some canEdit) (Some r2)).
Proof.
  intros Hm Hne Hreach Hp st r2 st' out.
  pose proof (run_inv tr) as Hinv. fold st in Hinv.
  destruct (inv_members_connected _ _ _ Hinv Hm) as [socket Hs].
  pose proof (step_join_enters st sid socket d db user wb role canEdit
                Hs Hreach Hp) as Hstep.
  subst st' out. rewrite Hstep in *. fold r2. split_and!.
  - intros tr0 sid0 s r. apply inv_cached, run_inv.
  - rewrite members_enter_room. fold r2.
    by rewrite (bool_decide_eq_false_2 (r1 = r2)).
  - rewrite members_enter_room. fold r2.
    by rewrite (bool_decide_eq_false_2 (r1 = r2)).
  - unfold enter_room. cbn [snd]. intros m ev [Hin | Hin]%elem_of_app.
    + by apply elem_of_to_emit in Hin as (x & [= -> ->] & _).
    + by apply list_elem_of_singleton in Hin as [= -> ->].
  - rewrite members_enter_room. by rewrite bool_decide_eq_true_2.
  - rewrite members_enter_room, bool_decide_eq_true_2 by done.
    apply elem_of_set_add. by left.
  - done.
  - unfold enter_room. cbn [fst sockets]. by rewrite lookup_insert_eq.
Qed.

(** Bob's move to [D-open] leaves Bob in [D-team]. *)
Lemma C2_second_join_keeps_first_room_witness :
  members (fst (step (run two_in_team) bob_moves)) "D-team"
    = members (run two_in_team) "D-team" /\
  "s-bob" ∈ members (fst (step (run two_in_team) bob_moves)) "D-team" /\
  "s-bob" ∈ members (fst (step (run two_in_team) bob_moves)) "D-open".
Proof.
  assert ("s-bob" ∈ members (run two_in_team) "D-team") as Hm.
  { apply (bool_decide_unpack _). by vm_compute. }
  assert (reaches_check demo_db (mkJoinData "D-open" (Some "u-bob"))
            (mkUser "u-bob" ("name of " +:+ "u-bob")) board_open) as Hr.
  { apply demo_reaches_check; [| reflexivity].
    rewrite !elem_of_cons. tauto. }
  pose proof (C2_second_join_keeps_first_room two_in_team "s-bob" "D-team"
                (mkJoinData "D-open" (Some "u-bob")) demo_db _ _
                "viewer" false Hm ltac:(done) Hr eq_refl) as H.
  cbv zeta in H. destruct H as (_ & H1 & H2 & _ & _ & H3 & _).
  exact (conj H1 (conj H2 H3)).
Defined.

(** ** C3: edit-gated events without the right to edit *)

(** C3.  An edit-gated event (draw start, draw, draw end, note add,
    update, delete, undo, redo) from a session whose cached canEdit is
    false leaves the hub as it is and emits exactly one message: the
    permission error of that event, addressed to the sender.  No other
    member receives anything. *)
Theorem C3_edit_denied (st : Hub) (sid : SocketId) (socket : Socket)
  (e : EditEvent) (data : gmap string JVal) :
  sockets st !! sid = Some socket ->
  s_canEdit socket = Some false ->
  step st (edit sid e data) = (st, [(sid, error (denied_message e))]) /\
  (forall m ev, (m, ev) ∈ snd (step st (edit sid e data)) ->
     m = sid /\ ev = error (denied_message e)) /\
  length (snd (step st (edit sid e data))) = 1.
Proof.
  intros Hs Hc.
  assert (step st (edit sid e data) = (st, [(sid, error (denied_message e))]))
    as ->.
  { unfold step, on_edit. by rewrite Hs, Hc. }
  split_and!; [done | | done].
  by intros m ev [= -> ->]%list_elem_of_singleton.
Qed.

(** Bob holds the level [view] on [D-team]; the stroke reaches nobody. *)
Lemma C3_edit_denied_witness :
  step (run two_in_team) (edit "s-bob" drawing ∅) =
    (run two_in_team, [("s-bob", error "You do not have permission to draw")]).
Proof.
  refine (proj1 (C3_edit_denied (run two_in_team) "s-bob"
                   (mkSocket (Some "u-bob") (Some "name of u-bob")
                             (Some "view") (Some false) (Some "D-team"))
                   drawing ∅ _ _)).
  - by vm_compute.
  - reflexivity.
Defined.

(** ** C4: the relayed payload *)

Lemma tag_sender_lookup socket data :
  tag_sender socket data !! "userId" = Some (js_field (s_userId socket)) /\
  tag_sender socket data !! "username" = Some (js_field (s_username socket)) /\
  (forall k, k ≠ "userId" -> k ≠ "username" ->
     tag_sender socket data !! k = data !! k).
Proof.
  unfold tag_sender. split_and!.
  - by rewrite lookup_insert_ne, lookup_insert_eq.
  - by rewrite lookup_insert_eq.
  - intros k H1 H2. by rewrite !lookup_insert_ne.
Qed.

Lemma tag_sender_socket_lookup sid socket data :
  tag_sender_socket sid socket data !! "socketId" = Some (JStr sid) /\
  tag_sender_socket sid socket data !! "userId"
    = Some (js_field (s_userId socket)) /\
  tag_sender_socket sid socket data !! "username"
    = Some (js_field (s_username socket)) /\
  (forall k, k ≠ "userId" -> k ≠ "username" -> k ≠ "socketId" ->
     tag_sender_socket sid socket data !! k = data !! k).
Proof.
  unfold tag_sender_socket.
  destruct (tag_sender_lookup socket data) as (H1 & H2 & H3). split_and!.
  - by rewrite lookup_insert_eq.
  - by rewrite lookup_insert_ne.
  - by rewrite lookup_insert_ne.
  - intros k ? ? ?. rewrite lookup_insert_ne by done. by apply H3.
Qed.

(** C4 (as stated) fails for the edit-gated events: Ann's stroke is
    relayed to Bob with the user id and display name of the session, but
    the connection id [s-ann] is not attached, and the [socketId] field
    the client supplied goes through as sent. *)
Lemma C4_connection_id_counterexample :
  exists payload,
    snd (step (run two_in_team)
           (edit "s-ann" drawing {[ "socketId" := JStr "forged" ]})) =
      [("s-bob", relay "drawing" payload)] /\
    payload !! "userId" = Some (JStr "u-ann") /\
    payload !! "socketId" = Some (JStr "forged") /\
    payload !! "socketId" ≠ Some (JStr "s-ann").
Proof.
  eexists. split; [by vm_compute |].
  split_and!; by vm_compute.
Qed.

(** C4 (as amended).  For every event that passes its permission check,
    from a session whose cached room is [r], the message goes to every
    member of [r] except the sender, never to the sender, and to nobody
    else.  Its payload is the client payload with [userId] and
    [username] set from the server-side session, overriding what the
    client supplied; every other field is relayed as the client sent it.
    The connection id is attached, as [socketId] and overriding the
    client's, by the cursor relay only. *)
Theorem C4_relay_payload (st : Hub) (sid : SocketId) (socket : Socket)
  (r : RoomId) (data : gmap string JVal) :
  sockets st !! sid = Some socket ->
  s_whiteboardId socket = Some r ->
  r ≠ "" ->
  let others := set_delete sid (members st r) in
  (forall m, m ∈ others <-> m ∈ members st r /\ m ≠ sid) /\
  (forall e, s_canEdit socket = Some true ->
     exists payload,
       step st (edit sid e data) =
         (st, (fun m => (m, relay (event_name e) payload)) <$> others) /\
       payload !! "userId" = Some (js_field (s_userId socket)) /\
       payload !! "username" = Some (js_field (s_username socket)) /\
       (forall k, k ≠ "userId" -> k ≠ "username" ->
          payload !! k = data !! k)) /\
  (is_owner_or_admin (s_userRole socket) = true ->
     exists payload,
       step st (clear_board sid data) =
         (st, (fun m => (m, relay "clear-board" payload)) <$> others) /\
       payload !! "userId" = Some (js_field (s_userId socket)) /\
       payload !! "username" = Some (js_field (s_username socket)) /\
       (forall k, k ≠ "userId" -> k ≠ "username" ->
          payload !! k = data !! k)) /\
  (exists payload,
     step st (cursor_move sid data) =
       (st, (fun m => (m, relay "cursor-move" payload)) <$> others) /\
     payload !! "socketId" = Some (JStr sid) /\
     payload !! "userId" = Some (js_field (s_userId socket)) /\
     payload !! "username" = Some (js_field (s_username socket)) /\
     (forall k, k ≠ "userId" -> k ≠ "username" -> k ≠ "socketId" ->
        payload !! k = data !! k)).
Proof.
  intros Hs Hr Hne others. split_and!.
  - intros m. apply elem_of_set_delete.
  - intros e Hc. exists (tag_sender socket data).
    split; [| apply tag_sender_lookup].
    unfold step, on_edit. by rewrite Hs, Hc, Hr.
  - intros Ha. exists (tag_sender socket data).
    split; [| apply tag_sender_lookup].
    unfold step, on_clear_board. by rewrite Hs, Ha, Hr.
  - exists (tag_sender_socket sid socket data).
    split; [| apply tag_sender_socket_lookup].
    unfold step, on_cursor_move. rewrite Hs, Hr. simpl.
    by rewrite bool_decide_eq_false_2.
Qed.

(** Ann's stroke, as Bob receives it. *)
Lemma C4_relay_payload_witness :
  exists payload,
    step (run two_in_team)
      (edit "s-ann" drawing {[ "socketId" := JStr "forged" ]}) =
      (run two_in_team,
       (fun m => (m, relay "drawing" payload))
         <$> set_delete "s-ann" (members (run two_in_team) "D-team")) /\
    payload !! "userId" = Some (JStr "u-ann") /\
    payload !! "username" = Some (JStr "name of u-ann") /\
    (forall k, k ≠ "userId" -> k ≠ "username" ->
       payload !! k =
         ({[ "socketId" := JStr "forged" ]} : gmap string JVal) !! k).
Proof.
  assert (sockets (run two_in_team) !! "s-ann" =
          Some (mkSocket (Some "u-ann") (Some "name of u-ann") (Some "owner")
                         (Some true) (Some "D-team"))) as Hs
    by by vm_compute.
  destruct (C4_relay_payload (run two_in_team) "s-ann" _ "D-team"
              {[ "socketId" := JStr "forged" ]} Hs eq_refl ltac:(done))
    as (_ & He & _).
  exact (He drawing eq_refl).
Defined.

(** ** C5: a join that fails *)

Lemma join_permission_denied wb uid :
  wb_owner wb ≠ uid ->
  Forall (fun c => c_user c ≠ uid) (wb_collaborators wb) ->
  wb_isPublic wb = false ->
  join_permission wb uid = None.
Proof.
  intros Ho Hc Hp. symmetry. apply resolves_join_permission.
  by apply resolves_denied.
Qed.

(** C5.  A join whose token and user resolve but whose document is
    missing, or whose user is neither the owner nor a collaborator of a
    document that is not public, emits exactly one message, an error to
    the joining connection; no room info is sent, and the hub is left as
    it was: no member set changes and the fields of the session (room
    id, role, canEdit) keep their values. *)
Theorem C5_failed_join (st : Hub) (sid : SocketId) (socket : Socket)
  (db : Oracle) (d : JoinData) (token : string) (decoded : UserId)
  (user : User) :
  sockets st !! sid = Some socket ->
  jd_token d = Some token -> token ≠ "" ->
  jwt_verify db token = Ok decoded ->
  User_findById db decoded = Ok (Some user) ->
  Whiteboard_findById db (jd_whiteboardId d) = Ok None \/
  (exists wb, Whiteboard_findById db (jd_whiteboardId d) = Ok (Some wb) /\
     wb_owner wb ≠ u_id user /\
     Forall (fun c => c_user c ≠ u_id user) (wb_collaborators wb) /\
     wb_isPublic wb = false) ->
  let st' := fst (step st (join_whiteboard sid (Some d) db)) in
  let out := snd (step st (join_whiteboard sid (Some d) db)) in
  (exists message, out = [(sid, error message)]) /\
  (forall r, got_room_info sid r out = false) /\
  st' = st /\
  (forall r, members st' r = members st r) /\
  sockets st' !! sid = Some socket.
Proof.
  intros Hs Ht Hne Hj Hu Hfail st' out.
  assert (exists message,
            step st (join_whiteboard sid (Some d) db) =
              join_failed st sid message) as [message Hstep].
  { unfold step, on_join_whiteboard. rewrite Hs, Ht. simpl.
    rewrite (bool_decide_eq_false_2 (token = "")) by done. simpl.
    rewrite Hj, Hu.
    destruct Hfail as [-> | (wb & -> & Ho & Hc & Hp)]; [by eexists |].
    rewrite (join_permission_denied _ _ Ho Hc Hp). by eexists. }
  subst st' out. rewrite Hstep. simpl. split_and!; eauto.
Qed.

(** Dan is unknown to the private board [D-team]. *)
Lemma C5_failed_join_witness :
  step (run two_in_team) (join_as "s-bob" "u-dan" "D-team") =
    (run two_in_team, [("s-bob", error "Access denied")]).
Proof.
  assert (sockets (run two_in_team) !! "s-bob" =
          Some (mkSocket (Some "u-bob") (Some "name of u-bob") (Some "view")
                         (Some false) (Some "D-team"))) as Hs
    by by vm_compute.
  assert (Whiteboard_findById demo_db "D-team" = Ok None \/
          (exists wb, Whiteboard_findById demo_db "D-team" = Ok (Some wb) /\
             wb_owner wb ≠ "u-dan" /\
             Forall (fun c => c_user c ≠ "u-dan") (wb_collaborators wb) /\
             wb_isPublic wb = false)) as Hfail.
  { right. exists board_team. split_and!; try done.
    repeat constructor; done. }
  pose proof (C5_failed_join (run two_in_team) "s-bob" _ demo_db
                (mkJoinData "D-team" (Some "u-dan")) "u-dan" "u-dan"
                (mkUser "u-dan" "name of u-dan") Hs eq_refl ltac:(done)
                eq_refl eq_refl Hfail) as H.
  cbv zeta in H. destruct H as (_ & _ & Hst & _).
  unfold join_as. rewrite (surjective_pairing (step _ _)), Hst.
  by f_equal.
Defined.

(** ** C7: clearing the board *)

(** C7.  A clear-board event from a session whose cached role is [edit]
    or [view] is answered by one error to the sender and relayed to
    nobody; from a session whose cached role is [owner] or [admin] it is
    relayed to all the other members of the session's room. *)
Theorem C7_clear_board (st : Hub) (sid : SocketId) (socket : Socket)
  (r : RoomId) (data : gmap string JVal) :
  sockets st !! sid = Some socket ->
  s_whiteboardId socket = Some r ->
  (s_userRole socket = Some "edit" \/ s_userRole socket = Some "view" ->
   step st (clear_board sid data) =
     (st, [(sid, error "You do not have permission to clear the board")])) /\
  (s_userRole socket = Some "owner" \/ s_userRole socket = Some "admin" ->
   step st (clear_board sid data) =
     (st, (fun m => (m, relay "clear-board" (tag_sender socket data)))
            <$> set_delete sid (members st r)) /\
   forall m, m ∈ set_delete sid (members st r) <->
             m ∈ members st r /\ m ≠ sid).
Proof.
  intros Hs Hr. unfold step, on_clear_board. rewrite Hs, Hr. split.
  - by intros [-> | ->].
  - intros Hrole. split; [by destruct Hrole as [-> | ->] |].
    intros m. apply elem_of_set_delete.
Qed.

(** Bob ([view]) is refused; Ann ([owner]) clears the board for Bob. *)
Lemma C7_clear_board_witness :
  step (run two_in_team) (clear_board "s-bob" ∅) =
    (run two_in_team,
     [("s-bob", error "You do not have permission to clear the board")]) /\
  step (run two_in_team) (clear_board "s-ann" ∅) =
    (run two_in_team,
     [("s-bob",
       relay "clear-board"
         (tag_sender (mkSocket (Some "u-ann") (Some "name of u-ann")
                               (Some "owner") (Some true) (Some "D-team"))
                     ∅))]).
Proof.
  split.
  - refine (proj1 (C7_clear_board (run two_in_team) "s-bob"
                     (mkSocket (Some "u-bob") (Some "name of u-bob")
                               (Some "view") (Some false) (Some "D-team"))
                     "D-team" ∅ _ eq_refl) (or_intror eq_refl)).
    by vm_compute.
  - refine (proj1 (proj2 (C7_clear_board (run two_in_team) "s-ann"
                     (mkSocket (Some "u-ann") (Some "name of u-ann")
                               (Some "owner") (Some true) (Some "D-team"))
                     "D-team" ∅ _ eq_refl) (or_introl eq_refl))).
    by vm_compute.
Defined.

(** ** C8: a closing transport *)

Lemma set_delete_not_elem x l : x ∉ l -> set_delete x l = l.
Proof.
  unfold set_delete. induction l as [|y l IH]; [done |].
  intros [Hne Hl]%not_elem_of_cons.
  rewrite filter_cons_True by done. f_equal. by apply IH.
Qed.

Lemma snapshot_ids_subseteq st r m :
  m ∈ snapshot_ids st r -> m ∈ members st r.
Proof.
  unfold snapshot_ids. intros (u & -> & Hu)%list_elem_of_fmap.
  by apply usersInRoom_entry in Hu as [Hu _].
Qed.

(** C8 (as stated) fails for a room the session joined earlier: Bob,
    a member of [D-team], has moved on to [D-open]; when Bob's transport
    closes Bob is taken out of [D-team], yet the step emits nothing, so
    Ann, who remains in [D-team], receives no departure notice. *)
Lemma C8_earlier_room_counterexample :
  members (run (two_in_team ++ [bob_moves])) "D-team" = ["s-ann"; "s-bob"] /\
  members (fst (step (run (two_in_team ++ [bob_moves]))
                     (disconnect "s-bob"))) "D-team" = ["s-ann"] /\
  snd (step (run (two_in_team ++ [bob_moves])) (disconnect "s-bob")) = [].
Proof. split_and!; by vm_compute. Qed.

(** C8 (as amended).  When the transport of a session whose last
    successful join was for room [r] closes, the session leaves the
    socket table and the member set of every room it is in, the other
    members of those rooms stay, and no snapshot taken afterwards lists
    it.  Every remaining member of [r], and nobody else, receives a
    departure notice with the user id, the display name and the
    connection id of the departed session: the members of a room it had
    joined earlier receive none. *)
Theorem C8_disconnect_notice (tr : list Input) (sid : SocketId)
  (socket : Socket) (r : RoomId) :
  sockets (run tr) !! sid = Some socket ->
  s_whiteboardId socket = Some r ->
  r ≠ "" ->
  let st := run tr in
  let st' := fst (step st (disconnect sid)) in
  let out := snd (step st (disconnect sid)) in
  sid ∈ members st r /\
  (forall r' m, m ∈ members st' r' <-> m ∈ members st r' /\ m ≠ sid) /\
  (exists uid name,
     s_userId socket = Some uid /\ s_username socket = Some name /\
     out = (fun m => (m, user_left (Some uid) (Some name) sid))
             <$> members st' r) /\
  (forall r', sid ∉ snapshot_ids st' r') /\
  sockets st' !! sid = None.
Proof.
  intros Hs Hr Hne st st' out.
  pose proof (run_inv tr) as Hinv. fold st in Hinv, Hs.
  destruct (inv_fields _ Hinv _ _ _ Hs Hr) as ([uid Hu] & [name Hn] & _).
  assert (step st (disconnect sid) =
            (close_socket st sid,
             on_disconnect (close_socket st sid) sid socket))
    as Hstep by (unfold step; by rewrite Hs).
  subst st' out. rewrite Hstep. cbn [fst snd]. split_and!.
  - by eapply inv_cached.
  - intros r' m. rewrite members_close_socket. apply elem_of_set_delete.
  - exists uid, name. split_and!; [done.. |].
    unfold on_disconnect, to_emit. rewrite Hr, Hu, Hn. simpl.
    rewrite (bool_decide_eq_false_2 (r = "")) by done. simpl.
    rewrite set_delete_not_elem; [done |].
    rewrite members_close_socket. apply not_elem_of_set_delete.
  - intros r' Hin%snapshot_ids_subseteq. revert Hin.
    rewrite members_close_socket. apply not_elem_of_set_delete.
  - simpl. apply lookup_delete_eq.
Qed.

(** Bob's transport closes while [D-team] is Bob's last room; Ann is
    told. *)
Lemma C8_disconnect_notice_witness :
  snd (step (run two_in_team) (disconnect "s-bob")) =
    (fun m => (m, user_left (Some "u-bob") (Some "name of u-bob") "s-bob"))
      <$> members (fst (step (run two_in_team) (disconnect "s-bob"))) "D-team"
  /\ ("s-bob" ∉ snapshot_ids
                   (fst (step (run two_in_team) (disconnect "s-bob")))
                   "D-team").
Proof.
  assert (sockets (run two_in_team) !! "s-bob" =
          Some (mkSocket (Some "u-bob") (Some "name of u-bob") (Some "view")
                         (Some false) (Some "D-team"))) as Hs
    by by vm_compute.
  pose proof (C8_disconnect_notice two_in_team "s-bob" _ "D-team"
                Hs eq_refl ltac:(done)) as H.
  cbv zeta in H.
  destruct H as (_ & _ & (uid & name & [= <-] & [= <-] & Hout) & Hsnap & _).
  exact (conj Hout (Hsnap "D-team")).
Defined.

(** ** C9: cursor moves *)



(** ** C10: events before any join *)

Lemma never_joined_fresh tr sid socket :
  sockets (run tr) !! sid = Some socket ->
  (forall r, joined_live tr r sid = false) ->
  socket = new_socket.
Proof.
  intros Hs Hnever. pose proof (run_inv tr) as Hinv.
  destruct (s_whiteboardId socket) as [r|] eqn:Hr.
  - pose proof (cached_room_joined_live tr sid socket r Hs Hr) as Hj.
    by rewrite Hnever in Hj.
  - by eapply inv_fresh.
Qed.

(** C10.  For a connected session that has not entered any room
    since it connected: a cursor-move event emits nothing at all, neither
    a relay nor an error; every edit-gated event, and clear-board, emits
    exactly one message, the permission error of that event addressed to
    the sender, which is not the authentication error of the join.  None
    of them changes the hub. *)
Theorem C10_before_join (tr : list Input) (sid : SocketId)
  (data : gmap string JVal) :
  is_Some (sockets (run tr) !! sid) ->
  (forall r, joined_live tr r sid = false) ->
  step (run tr) (cursor_move sid data) = (run tr, []) /\
  (forall e,
     step (run tr) (edit sid e data) =
       (run tr, [(sid, error (denied_message e))]) /\
     denied_message e ≠ "Authentication required") /\
  step (run tr) (clear_board sid data) =
    (run tr, [(sid, error "You do not have permission to clear the board")]).
Proof.
  intros [socket Hs] Hnever.
  pose proof (never_joined_fresh _ _ _ Hs Hnever) as ->.
  unfold step. rewrite Hs. split_and!; [done | | done].
  intros e. split; [done | by destruct e].
Qed.

(** A session whose only join was refused. *)
Lemma C10_before_join_witness :
  step (run [connection "s-dan"; join_as "s-dan" "u-dan" "D-team"])
       (cursor_move "s-dan" ∅) =
    (run [connection "s-dan"; join_as "s-dan" "u-dan" "D-team"], []) /\
  step (run [connection "s-dan"; join_as "s-dan" "u-dan" "D-team"])
       (edit "s-dan" undo ∅) =
    (run [connection "s-dan"; join_as "s-dan" "u-dan" "D-team"],
     [("s-dan", error "You do not have permission to perform this action")]).
Proof.
  destruct (C10_before_join
              [connection "s-dan"; join_as "s-dan" "u-dan" "D-team"]
              "s-dan" ∅) as (Hc & He & _).
  - eexists. by vm_compute.
  - intros r. reflexivity.
  - split; [exact Hc | exact (proj1 (He undo))].
Defined.

(** * Further properties of the code *)

(** ** The permission middleware *)

Lemma permissions_Some p allowed :
  permissions p = Some allowed ->
  valid_level p /\ "view" ∈ allowed /\
  ("edit" ∈ allowed <-> p = "edit" \/ p = "admin") /\
  ("admin" ∈ allowed <-> p = "admin").
Proof.
  unfold permissions, valid_level.
  repeat case_bool_decide; intros [= <-]; subst;
    rewrite ?elem_of_cons, ?elem_of_nil; intuition congruence.
Qed.

Lemma permissions_valid p :
  valid_level p -> exists allowed, permissions p = Some allowed.
Proof.
  unfold permissions. intros [-> | [-> | ->]]; simpl; eauto.
Qed.

Lemma find_collaborator_elem uid cs c :
  find_collaborator uid cs = Some c -> c ∈ cs /\ c_user c = uid.
Proof.
  intros (b & a & -> & _ & Hu)%find_collaborator_split.
  split; [| done]. apply elem_of_app. right. by left.
Qed.

(** X1.  With collaborator levels drawn from the schema, the middleware
    asked for [view] lets through exactly the users whose join would be
    accepted, and under the same role string; everyone else gets 403 with
    [available: none]. *)
Theorem X1_view_gate_agrees_with_join
  (store : gmap string Doc) (id : string) (d : Doc) (uid : UserId) :
  store !! id = Some d ->
  Forall (fun c => valid_level (c_permission c))
         (wb_collaborators (doc_access d)) ->
  checkPermissions "view" store id uid =
    match join_permission (doc_access d) uid with
    | Some (role, _) => next role d
    | None => refused (mkResponse 403 (b_insufficient "view" "none"))
    end.
Proof.
  intros Hd Hvalid. unfold checkPermissions, join_permission. rewrite Hd.
  case_bool_decide as Ho; [done |].
  destruct (find_collaborator uid _) as [c|] eqn:Hf.
  - apply find_collaborator_elem in Hf as [Hc _].
    rewrite Forall_forall in Hvalid. pose proof (Hvalid c Hc) as Hv.
    destruct (permissions_valid _ Hv) as [allowed Ha]. rewrite Ha.
    apply permissions_Some in Ha as (_ & Hview & _).
    by rewrite bool_decide_eq_true_2.
  - unfold public_or_403. by destruct (wb_isPublic (doc_access d)).
Qed.

Lemma demo_store_team :
  exists d, demo_store !! "D-team" = Some d /\ doc_access d = board_team.
Proof. eexists. split; by vm_compute. Qed.

(** Bob, a [view] collaborator of [D-team], may read it. *)
Lemma X1_view_gate_agrees_with_join_witness :
  exists d, demo_store !! "D-team" = Some d /\
            checkPermissions "view" demo_store "D-team" "u-bob"
              = next "view" d.
Proof.
  destruct demo_store_team as (d & Hd & Ha). exists d. split; [done |].
  rewrite (X1_view_gate_agrees_with_join demo_store "D-team" d "u-bob" Hd).
  - by rewrite Ha.
  - rewrite Ha. unfold valid_level. repeat constructor; simpl; tauto.
Defined.

Lemma passes_checkPermissions req store id uid :
  passes (checkPermissions req store id uid) <->
  exists d, store !! id = Some d /\
    (wb_owner (doc_access d) = uid \/
     wb_owner (doc_access d) ≠ uid /\
     ((exists c allowed,
         find_collaborator uid (wb_collaborators (doc_access d)) = Some c /\
         permissions (c_permission c) = Some allowed /\ req ∈ allowed) \/
      (req = "view" /\ wb_isPublic (doc_access d) = true /\
       forall c, find_collaborator uid (wb_collaborators (doc_access d))
                   = Some c ->
                 exists allowed, permissions (c_permission c) = Some allowed))).
Proof.
  unfold checkPermissions. destruct (store !! id) as [d|]; simpl.
  2: { split; [done | by intros (? & ? & _)]. }
  case_bool_decide as Ho.
  { split; [| done]. intros _. exists d. split; [done | by left]. }
  split.
  - intros Hp. exists d. split; [done |]. right. split; [done |].
    destruct (find_collaborator uid _) as [c|] eqn:Hf.
    + destruct (permissions (c_permission c)) as [allowed|] eqn:Ha;
        [| done].
      case_bool_decide as Hin; [left; eauto |].
      right. unfold public_or_403 in Hp.
      destruct (wb_isPublic _); [| done]. simpl in Hp.
      case_bool_decide; [| done]. split_and!; try done.
      intros c' [= <-]. eauto.
    + right. unfold public_or_403 in Hp.
      destruct (wb_isPublic _); [| done]. simpl in Hp.
      case_bool_decide; [| done]. split_and!; done.
  - intros (d' & [= <-] & [Heq | [_ H]]); [done |].
    destruct H as [(c & allowed & -> & -> & Hin) | (-> & Hpub & Hc)].
    + by rewrite bool_decide_eq_true_2.
    + destruct (find_collaborator uid _) as [c|] eqn:Hf.
      * destruct (Hc c eq_refl) as [allowed Ha]. rewrite Ha.
        case_bool_decide; [done |]. unfold public_or_403.
        by rewrite Hpub.
      * unfold public_or_403. by rewrite Hpub.
Qed.

(** X2.  With collaborator levels drawn from the schema, the REST gates
    and the socket gates open for the same users: the middleware asked
    for [edit] passes exactly the users whose join yields canEdit, and
    asked for [admin] exactly the users whose join yields a role that the
    clear-board handler accepts. *)
Theorem X2_rest_gates_match_socket_gates
  (store : gmap string Doc) (id : string) (d : Doc) (uid : UserId) :
  store !! id = Some d ->
  Forall (fun c => valid_level (c_permission c))
         (wb_collaborators (doc_access d)) ->
  (passes (checkPermissions "edit" store id uid) <->
   exists role, join_permission (doc_access d) uid = Some (role, true)) /\
  (passes (checkPermissions "admin" store id uid) <->
   exists role canEdit,
     join_permission (doc_access d) uid = Some (role, canEdit) /\
     is_owner_or_admin (Some role) = true).
Proof.
  intros Hd Hvalid. unfold checkPermissions, join_permission. rewrite Hd.
  case_bool_decide as Ho.
  { split; (split; [intros _; eauto | done]). }
  destruct (find_collaborator uid _) as [c|] eqn:Hf.
  - apply find_collaborator_elem in Hf as [Hc _].
    rewrite Forall_forall in Hvalid.
    destruct (Hvalid c Hc) as [Hp | [Hp | Hp]]; rewrite Hp;
      unfold public_or_403; destruct (wb_isPublic (doc_access d));
      cbv -[is_owner_or_admin].
    all: split; split.
    all: try done.
    all: try (intros _; by repeat eexists).
    all: try by intros (? & [= <-]).
    all: try by intros (? & ? & [= <- <-] & ?).
  - unfold public_or_403.
    destruct (wb_isPublic (doc_access d)); cbv -[is_owner_or_admin].
    all: split; split.
    all: try done.
    all: try by intros (? & [= <-]).
    all: try by intros (? & ? & [= <- <-] & ?).
    all: try by intros (? & ? & ? & ?).
    all: try by intros (? & ?).
Qed.

(** Cy, an [edit] collaborator, passes the edit gate as the join says. *)
Lemma X2_rest_gates_match_socket_gates_witness :
  passes (checkPermissions "edit" demo_store "D-team" "u-cy") <->
  exists role, join_permission board_team "u-cy" = Some (role, true).
Proof.
  destruct demo_store_team as (d & Hd & Ha). rewrite <- Ha.
  assert (Forall (fun c => valid_level (c_permission c))
                 (wb_collaborators (doc_access d))) as Hvalid.
  { rewrite Ha. unfold valid_level. repeat constructor; simpl; tauto. }
  exact (proj1 (X2_rest_gates_match_socket_gates
                  demo_store "D-team" d "u-cy" Hd Hvalid)).
Defined.

(** X3.  The three gates are nested, for every store and user: whoever
    passes the [admin] gate passes the [edit] gate, and whoever passes
    the [edit] gate passes the [view] gate.  A user who is neither the
    owner nor a collaborator passes no gate but [view], and that one only
    on a public board. *)
Theorem X3_gates_are_nested
  (store : gmap string Doc) (id : string) (uid : UserId) :
  (passes (checkPermissions "admin" store id uid) ->
   passes (checkPermissions "edit" store id uid)) /\
  (passes (checkPermissions "edit" store id uid) ->
   passes (checkPermissions "view" store id uid)) /\
  (forall req d,
     store !! id = Some d ->
     wb_owner (doc_access d) ≠ uid ->
     find_collaborator uid (wb_collaborators (doc_access d)) = None ->
     (passes (checkPermissions req store id uid) <->
      req = "view" /\ wb_isPublic (doc_access d) = true)).
Proof.
  split_and!.
  - rewrite !passes_checkPermissions.
    intros (d & Hd & [Ho | [Ho [(c & allowed & Hf & Ha & Hin) | (? & _)]]]);
      [by eauto | | done].
    exists d. split; [done |]. right. split; [done |]. left.
    exists c, allowed. split_and!; try done.
    apply permissions_Some in Ha as (_ & _ & He & Hadm).
    apply He. right. by apply Hadm.
  - rewrite !passes_checkPermissions.
    intros (d & Hd & [Ho | [Ho [(c & allowed & Hf & Ha & Hin) | (? & _)]]]);
      [by eauto | | done].
    exists d. split; [done |]. right. split; [done |]. left.
    exists c, allowed. split_and!; try done.
    by apply permissions_Some in Ha as (_ & Hv & _).
  - intros req d Hd Ho Hf. rewrite passes_checkPermissions. split.
    + intros (d' & Hd' & [Ho' | [_ [(c & al & Hf' & _) | (-> & Hp & _)]]]);
        simplify_eq; done.
    + intros [-> Hp]. exists d. split; [done |]. right. split; [done |].
      right. split_and!; try done. intros c. by rewrite Hf.
Qed.

(** ** The routes *)

Lemma checkPermissions_refused req store id uid res :
  checkPermissions req store id uid = refused res ->
  res_status res ∈ [403; 404; 500].
Proof.
  unfold checkPermissions, public_or_403.
  destruct (store !! id) as [d|]; [| intros [= <-]; set_solver].
  case_bool_decide; [done |].
  destruct (find_collaborator uid _) as [c|].
  - destruct (permissions (c_permission c)); [| intros [= <-]; set_solver].
    case_bool_decide; [done |].
    destruct (_ && _); [done | intros [= <-]; set_solver].
  - destruct (_ && _); [done | intros [= <-]; set_solver].
Qed.

Lemma checkPermissions_next req store id uid role d :
  checkPermissions req store id uid = next role d -> store !! id = Some d.
Proof.
  unfold checkPermissions, public_or_403.
  destruct (store !! id) as [d'|]; [| done].
  case_bool_decide; [by intros [= _ ->] |].
  destruct (find_collaborator uid _) as [c|].
  - destruct (permissions (c_permission c)); [| done].
    case_bool_decide; [by intros [= _ ->] |].
    destruct (_ && _); [by intros [= _ ->] | done].
  - destruct (_ && _); [by intros [= _ ->] | done].
Qed.

Lemma guarded_refused req store id uid handler :
  ¬ passes (checkPermissions req store id uid) ->
  exists res, guarded req store id uid handler = (store, res) /\
              res_status res ∈ [403; 404; 500].
Proof.
  unfold guarded. intros Hp.
  destruct (checkPermissions req store id uid) as [role d|res] eqn:Hc.
  - by destruct Hp.
  - exists res. split; [done |]. by eapply checkPermissions_refused.
Qed.

Lemma guarded_passes req store id uid handler :
  passes (checkPermissions req store id uid) ->
  exists role d, store !! id = Some d /\
    checkPermissions req store id uid = next role d /\
    guarded req store id uid handler = handler d.
Proof.
  unfold guarded. intros Hp.
  destruct (checkPermissions req store id uid) as [role d|res] eqn:Hc;
    [| done].
  exists role, d. split_and!; try done. by eapply checkPermissions_next.
Qed.

Lemma save_lookup_ne lib store id d saved failure id' :
  id' ≠ id -> fst (save lib store id d saved failure) !! id' = store !! id'.
Proof.
  intros Hne. unfold save.
  destruct (validate lib d); cbn [fst]; [by rewrite lookup_insert_ne | done].
Qed.

(** Every handler writes at most the board it is called on. *)
Lemma handlers_confined lib dir now store uid id id' :
  id' ≠ id ->
  (forall dp sn,
     fst (update_board lib now store id dp sn) !! id' = store !! id') /\
  fst (delete_board store id) !! id' = store !! id' /\
  (forall e p, fst (add_collaborator lib dir store uid id e p) !! id'
               = store !! id') /\
  (forall u, fst (remove_collaborator lib store id u) !! id'
             = store !! id') /\
  fst (toggle_visibility lib store id) !! id' = store !! id'.
Proof.
  intros Hne. split_and!.
  - intros dp sn. unfold update_board.
    destruct (cast_all _ _); [| done]. destruct (cast_all _ _); [| done].
    destruct (store !! id); simpl; [by rewrite lookup_insert_ne | done].
  - unfold delete_board.
    destruct (store !! id); simpl; [by rewrite lookup_delete_ne | done].
  - intros e p. unfold add_collaborator.
    destruct (_ || _); [done |]. destruct (negb _); [done |].
    destruct (dir _); [| done]. case_bool_decide; [done |].
    destruct (store !! id); [by apply save_lookup_ne | done].
  - intros u. unfold remove_collaborator.
    destruct (store !! id); [by apply save_lookup_ne | done].
  - unfold toggle_visibility.
    destruct (store !! id); [by apply save_lookup_ne | done].
Qed.

Lemma guarded_confined req store id uid handler id' :
  (forall d, fst (handler d) !! id' = store !! id') ->
  fst (guarded req store id uid handler) !! id' = store !! id'.
Proof.
  intros H. unfold guarded. by destruct (checkPermissions _ _ _ _).
Qed.

(** X4.  No request changes the store without passing its gate: a
    request whose user does not pass the gate of its route (view to read
    a board, edit to save it, admin to delete it, to add or remove a
    collaborator or to switch its visibility) is answered 403, 404 or 500
    and leaves the whole store as it was.  Whatever the outcome, a
    request changes no board other than the one it names, and the two
    reading routes change nothing. *)
Theorem X4_route_authorization
  (lib : Library) (dir : string -> option UserId) (now : Z)
  (store : gmap string Doc) (uid : UserId) (rq : Request) :
  (forall req id,
     gate_of rq = Some (req, id) ->
     ¬ passes (checkPermissions req store id uid) ->
     fst (route lib dir now store uid rq) = store /\
     res_status (snd (route lib dir now store uid rq)) ∈ [403; 404; 500]) /\
  (forall id', target_of rq ≠ Some id' ->
     fst (route lib dir now store uid rq) !! id' = store !! id') /\
  match rq with
  | GET_list | GET_board _ => fst (route lib dir now store uid rq) = store
  | _ => True
  end.
Proof.
  split_and!.
  - intros req id Hg Hp.
    destruct rq; simpl in Hg; simplify_eq; simpl;
      match goal with
      | |- context [guarded ?r ?s ?i ?u ?h] =>
          destruct (guarded_refused r s i u h Hp) as (res & -> & Hst)
      end; done.
  - intros id' Hne.
    destruct rq as [|id|id name|id dp sn|id|id e p|id u|id]; simpl in *.
    + done.
    + by apply guarded_confined.
    + unfold create_board. destruct id as [i|]; [| done].
      destruct (negb _); [done |].
      destruct (store !! i); simpl; [done |].
      rewrite lookup_insert_ne; [done | congruence].
    + assert (id' ≠ id) as Hne' by congruence.
      apply guarded_confined. intros _.
      by apply (handlers_confined lib dir now store uid id id' Hne').
    + assert (id' ≠ id) as Hne' by congruence.
      apply guarded_confined. intros _.
      by apply (handlers_confined lib dir now store uid id id' Hne').
    + assert (id' ≠ id) as Hne' by congruence.
      apply guarded_confined. intros _.
      by apply (handlers_confined lib dir now store uid id id' Hne').
    + assert (id' ≠ id) as Hne' by congruence.
      apply guarded_confined. intros _.
      by apply (handlers_confined lib dir now store uid id id' Hne').
    + assert (id' ≠ id) as Hne' by congruence.
      apply guarded_confined. intros _.
      by apply (handlers_confined lib dir now store uid id id' Hne').
  - destruct rq; try done. simpl. unfold guarded.
    by destruct (checkPermissions _ _ _ _).
Qed.

(** ** What the routes keep true of every board *)

Lemma update_first_users uid p cs :
  c_user <$> update_first uid p cs = c_user <$> cs.
Proof.
  induction cs as [|c cs IH]; [done |]. cbn [update_first].
  case_bool_decide; rewrite !fmap_cons; [done | by rewrite IH].
Qed.

Lemma update_first_levels uid p cs :
  valid_level p ->
  Forall (fun c => valid_level (c_permission c)) cs ->
  Forall (fun c => valid_level (c_permission c)) (update_first uid p cs).
Proof.
  intros Hp. induction 1 as [|c cs Hc Hcs IH]; [constructor |]. simpl.
  case_bool_decide; by constructor.
Qed.

Lemma find_collaborator_not_elem uid cs :
  find_collaborator uid cs = None <-> uid ∉ c_user <$> cs.
Proof.
  rewrite find_collaborator_none, Forall_forall, list_elem_of_fmap.
  split.
  - intros H (c & -> & Hc). by apply (H c).
  - intros H c Hc Heq. apply H. exists c. by split.
Qed.

Lemma upsert_well_formed owner uid p cs pub :
  valid_level p ->
  well_formed (mkWhiteboard owner cs pub) ->
  well_formed (mkWhiteboard owner (upsert_collaborator uid p cs) pub).
Proof.
  unfold well_formed, upsert_collaborator. cbn [wb_collaborators].
  intros Hp [Hl Hn].
  destruct (find_collaborator uid cs) as [c|] eqn:Hf.
  - split; [by apply update_first_levels |].
    by rewrite update_first_users.
  - apply find_collaborator_not_elem in Hf. split.
    + apply Forall_app. split; [done |]. by apply Forall_singleton.
    + rewrite fmap_app. apply NoDup_app. split_and!; [done | |].
      * intros x Hx ->%list_elem_of_singleton. done.
      * apply NoDup_singleton.
Qed.

Lemma filter_users_NoDup (P : Collaborator -> Prop)
  `{!forall c, Decision (P c)} cs :
  NoDup (c_user <$> cs) -> NoDup (c_user <$> filter P cs).
Proof.
  induction cs as [|c cs IH]; [done |]. rewrite fmap_cons, NoDup_cons.
  intros [Hc Hn]. rewrite filter_cons. destruct (decide (P c)); [| auto].
  rewrite fmap_cons, NoDup_cons. split; [| auto].
  intros (c' & Heq & Hin%list_elem_of_filter)%list_elem_of_fmap.
  apply Hc. apply list_elem_of_fmap. exists c'. by destruct Hin.
Qed.

Lemma remove_well_formed owner uid cs pub :
  well_formed (mkWhiteboard owner cs pub) ->
  well_formed
    (mkWhiteboard owner (filter (fun collab => c_user collab ≠ uid) cs) pub).
Proof.
  unfold well_formed. cbn [wb_collaborators]. intros [Hl Hn]. split.
  - rewrite Forall_forall in *. intros c [_ Hc]%list_elem_of_filter. auto.
  - by apply filter_users_NoDup.
Qed.

Lemma store_ok_insert store id d :
  store_ok store -> well_formed (doc_access d) ->
  store_ok (<[id := d]> store).
Proof.
  intros Hs Hd id' d'. rewrite lookup_insert. case_decide.
  - by intros [= <-].
  - apply Hs.
Qed.

Lemma well_formed_eta wb :
  well_formed wb ->
  well_formed (mkWhiteboard (wb_owner wb) (wb_collaborators wb)
                            (wb_isPublic wb)).
Proof. by destruct wb. Qed.

Lemma save_store_ok lib store id d saved failure :
  store_ok store -> well_formed (doc_access d) ->
  store_ok (fst (save lib store id d saved failure)).
Proof.
  intros Hs Hd. unfold save. destruct (validate lib d); cbn [fst]; [| done].
  by apply store_ok_insert.
Qed.

Lemma route_store_ok lib dir now store uid rq :
  store_ok store -> store_ok (fst (route lib dir now store uid rq)).
Proof.
  intros Hs. destruct rq as [|id|id name|id dp sn|id|id e p|id u|id]; simpl.
  - done.
  - unfold guarded. by destruct (checkPermissions _ _ _ _).
  - unfold create_board. destruct id as [i|]; [| done].
    destruct (negb _); [done |]. destruct (store !! i); [done |]. simpl.
    apply store_ok_insert; [done |]. split; simpl; constructor.
  - unfold guarded. destruct (checkPermissions _ _ _ _); [| done].
    unfold update_board.
    destruct (cast_all _ _); [| done]. destruct (cast_all _ _); [| done].
    destruct (store !! id) as [d|] eqn:Hd; [| done].
    simpl. apply store_ok_insert; [done |]. simpl. by eapply Hs.
  - unfold guarded. destruct (checkPermissions _ _ _ _); [| done].
    unfold delete_board. destruct (store !! id) as [d|] eqn:Hd; [| done].
    simpl. intros id' d'. rewrite lookup_delete. case_decide; [done |].
    apply Hs.
  - unfold guarded. destruct (checkPermissions _ _ _ _); [| done].
    unfold add_collaborator. destruct (_ || _); [done |].
    case_bool_decide as Hlevel; simpl; [| done].
    destruct (dir _) as [target|]; [| done]. case_bool_decide; [done |].
    destruct (store !! id) as [d|] eqn:Hd; [| done].
    apply save_store_ok; [done |]. simpl.
    apply upsert_well_formed.
    + unfold valid_level. rewrite !elem_of_cons, elem_of_nil in Hlevel.
      tauto.
    + apply well_formed_eta. by eapply Hs.
  - unfold guarded. destruct (checkPermissions _ _ _ _); [| done].
    unfold remove_collaborator.
    destruct (store !! id) as [d|] eqn:Hd; [| done].
    apply save_store_ok; [done |]. simpl.
    apply remove_well_formed, well_formed_eta. by eapply Hs.
  - unfold guarded. destruct (checkPermissions _ _ _ _); [| done].
    unfold toggle_visibility.
    destruct (store !! id) as [d|] eqn:Hd; [| done].
    apply save_store_ok; [done |]. simpl.
    destruct (Hs _ _ Hd) as [Hl Hn]. by split.
Qed.

Lemma serve_all_store_ok store cs :
  store_ok store -> store_ok (serve_all store cs).
Proof.
  revert store. induction cs as [|c cs IH]; intros store Hs; [done |].
  simpl. apply IH. by apply route_store_ok.
Qed.

Lemma store_ok_no_500 store req id uid res :
  store_ok store ->
  checkPermissions req store id uid = refused res ->
  res_status res ∈ [403; 404].
Proof.
  intros Hs. unfold checkPermissions, public_or_403.
  destruct (store !! id) as [d|] eqn:Hd; [| intros [= <-]; set_solver].
  case_bool_decide; [done |].
  destruct (find_collaborator uid _) as [c|] eqn:Hf.
  - destruct (Hs _ _ Hd) as [Hl _]. rewrite Forall_forall in Hl.
    apply find_collaborator_elem in Hf as [Hc _].
    destruct (permissions_valid _ (Hl c Hc)) as [allowed ->].
    case_bool_decide; [done |].
    destruct (_ && _); [done | intros [= <-]; set_solver].
  - destruct (_ && _); [done | intros [= <-]; set_solver].
Qed.

(** X5.  Whatever sequence of calls builds the store from the empty
    collection, every board keeps collaborator levels among [view],
    [edit] and [admin] and at most one entry per user; hence the
    permission middleware never fails with 500 on such a store: it lets
    the request through or answers 403 or 404. *)
Theorem X5_store_invariant (cs : list Call) :
  store_ok (serve_all ∅ cs) /\
  (forall req id uid res,
     checkPermissions req (serve_all ∅ cs) id uid = refused res ->
     res_status res ∈ [403; 404]).
Proof.
  assert (store_ok (serve_all ∅ cs)) as Hs.
  { apply serve_all_store_ok. intros id d. by rewrite lookup_empty. }
  split; [done |]. intros req id uid res. by apply store_ok_no_500.
Qed.

(** ** Granting and revoking access *)

Lemma find_update_first u p cs c :
  find_collaborator u cs = Some c ->
  find_collaborator u (update_first u p cs) = Some (mkCollaborator u p).
Proof.
  unfold find_collaborator. induction cs as [|c0 cs IH]; [done |].
  cbn [find update_first]. case_bool_decide as Hc.
  - intros _. cbn [find c_user]. rewrite bool_decide_eq_true_2 by done.
    by rewrite Hc.
  - intros Hf. cbn [find]. rewrite bool_decide_eq_false_2 by done. auto.
Qed.

Lemma find_update_first_other u v p cs :
  v ≠ u ->
  find_collaborator v (update_first u p cs) = find_collaborator v cs.
Proof.
  unfold find_collaborator. intros Hne. induction cs as [|c0 cs IH]; [done |].
  cbn [find update_first]. case_bool_decide as Hc.
  - cbn [find c_user]. by rewrite !bool_decide_eq_false_2 by congruence.
  - cbn [find]. by rewrite IH.
Qed.

Lemma find_snoc_other u v p cs :
  v ≠ u ->
  find_collaborator v (cs ++ [mkCollaborator u p]) = find_collaborator v cs.
Proof.
  unfold find_collaborator. intros Hne. induction cs as [|c0 cs IH].
  - cbn. by rewrite bool_decide_eq_false_2 by congruence.
  - cbn [app find]. by rewrite IH.
Qed.

Lemma find_upsert u p cs :
  find_collaborator u (upsert_collaborator u p cs)
    = Some (mkCollaborator u p).
Proof.
  unfold upsert_collaborator.
  destruct (find_collaborator u cs) as [c|] eqn:Hf.
  - by eapply find_update_first.
  - apply find_collaborator_first; [| done].
    by apply find_collaborator_none.
Qed.

Lemma find_upsert_other u v p cs :
  v ≠ u ->
  find_collaborator v (upsert_collaborator u p cs) = find_collaborator v cs.
Proof.
  intros Hne. unfold upsert_collaborator.
  destruct (find_collaborator u cs).
  - by apply find_update_first_other.
  - by apply find_snoc_other.
Qed.

Lemma find_filter_removed u cs :
  find_collaborator u (filter (fun collab => c_user collab ≠ u) cs) = None.
Proof.
  apply find_collaborator_none, Forall_forall.
  by intros c [Hc _]%list_elem_of_filter.
Qed.

Lemma find_filter_other u v cs :
  v ≠ u ->
  find_collaborator v (filter (fun collab => c_user collab ≠ u) cs)
    = find_collaborator v cs.
Proof.
  unfold find_collaborator. intros Hne. induction cs as [|c0 cs IH]; [done |].
  rewrite filter_cons. destruct (decide (c_user c0 ≠ u)) as [Hc | Hc].
  - cbn [find]. by rewrite IH.
  - cbn [find]. rewrite bool_decide_eq_false_2; [done |].
    intros Hv. apply Hc. congruence.
Qed.

Lemma filter_absent u cs :
  find_collaborator u cs = None ->
  filter (fun collab => c_user collab ≠ u) cs = cs.
Proof.
  rewrite find_collaborator_none. induction 1 as [|c cs Hc _ IH]; [done |].
  rewrite filter_cons_True by done. by rewrite IH.
Qed.

Lemma join_permission_ext wb wb' v :
  wb_owner wb' = wb_owner wb ->
  find_collaborator v (wb_collaborators wb')
    = find_collaborator v (wb_collaborators wb) ->
  wb_isPublic wb' = wb_isPublic wb ->
  join_permission wb' v = join_permission wb v.
Proof. unfold join_permission. by intros -> -> ->. Qed.

Lemma valid_level_nonempty p : valid_level p -> p ≠ "".
Proof. by intros [-> | [-> | ->]]. Qed.

(** X6.  When a user who passes the admin gate adds a known user [u],
    other than themselves, with one of the three levels, the board is saved
    with the entry of [u] set to that level, and the answer is 200; or,
    when the board with the new entry does not validate, the answer is
    500 and the store is left as it was.  In the saved board the grant
    holds at the next join: the join decision of [u] becomes that level,
    with canEdit iff it is [edit] or [admin], also when [u] had another
    level before; unless [u] owns the board, in which case they stay
    owner.  The decision of every other user, the owner, the visibility
    and the contents of the board are as before. *)
Theorem X6_grant_takes_effect
  (lib : Library) (dir : string -> option UserId) (now : Z)
  (store : gmap string Doc) (uid : UserId) (id : string) (d : Doc)
  (e : string) (u : UserId) (p : string) :
  passes (checkPermissions "admin" store id uid) ->
  store !! id = Some d ->
  e ≠ "" -> dir e = Some u -> u ≠ uid -> valid_level p ->
  let rq := POST_collaborator id (Some e) (Some p) in
  let d' := with_access d
              (mkWhiteboard (wb_owner (doc_access d))
                 (upsert_collaborator u p (wb_collaborators (doc_access d)))
                 (wb_isPublic (doc_access d))) in
  route lib dir now store uid rq =
    (if validate lib d' then
       (<[id := d']> store,
        mkResponse 200
          (b_message_board "Collaborator added successfully" id d'))
     else
       (store,
        mkResponse 500
          (b_message "Server error during collaborator addition"))) /\
  doc_name d' = doc_name d /\
  doc_drawingPaths d' = doc_drawingPaths d /\
  doc_stickyNotes d' = doc_stickyNotes d /\
  wb_owner (doc_access d') = wb_owner (doc_access d) /\
  wb_isPublic (doc_access d') = wb_isPublic (doc_access d) /\
  (u ≠ wb_owner (doc_access d) ->
   join_permission (doc_access d') u = Some (p, edit_or_admin p)) /\
  (forall v, v ≠ u ->
     join_permission (doc_access d') v = join_permission (doc_access d) v).
Proof.
  intros Hgate Hd He Hdir Hself Hp rq d'. subst rq. cbn [route].
  destruct (guarded_passes "admin" store id uid
              (fun _ =>
                 add_collaborator lib dir store uid id (Some e) (Some p))
              Hgate) as (role & d0 & _ & _ & ->).
  unfold add_collaborator. cbn [truthy from_option Datatypes.id].
  rewrite (bool_decide_eq_false_2 (e = "")) by done.
  rewrite (bool_decide_eq_false_2 (p = ""))
    by by apply valid_level_nonempty.
  cbn [negb orb].
  rewrite (bool_decide_eq_true_2 (p ∈ ["view"; "edit"; "admin"])).
  2: { rewrite !elem_of_cons. unfold valid_level in Hp. tauto. }
  cbn [negb]. rewrite Hdir, (bool_decide_eq_false_2 (u = uid)) by done.
  rewrite Hd. fold d'. unfold save. split_and!; try done.
  - intros Howner. unfold join_permission. subst d'. unfold with_access.
    cbn [doc_access wb_owner wb_collaborators wb_isPublic].
    rewrite bool_decide_eq_false_2 by congruence.
    by rewrite find_upsert.
  - intros v Hv. apply join_permission_ext; try done.
    by apply find_upsert_other.
Qed.

(** The owner raises Bob from [view] to [edit] on [D-team]. *)
Lemma X6_grant_takes_effect_witness :
  exists d',
    fst (route demo_library demo_directory 0 demo_store "u-ann"
           (POST_collaborator "D-team" (Some "bob@example.org")
                              (Some "edit"))) !! "D-team" = Some d' /\
    join_permission (doc_access d') "u-bob" = Some ("edit", true).
Proof.
  assert ("bob@example.org" ≠ "") as He by done.
  assert (demo_directory "bob@example.org" = Some "u-bob") as Hdir
    by reflexivity.
  assert ("u-bob" ≠ "u-ann") as Hself by done.
  assert ("u-bob" ≠ wb_owner board_team) as Hown by done.
  assert (valid_level "edit") as Hp by (unfold valid_level; tauto).
  assert (passes (checkPermissions "admin" demo_store "D-team" "u-ann"))
    as Hgate by (vm_compute; exact I).
  destruct demo_store_team as (d & Hd & Ha).
  pose proof (X6_grant_takes_effect demo_library demo_directory 0
                demo_store "u-ann" "D-team" d "bob@example.org" "u-bob"
                "edit" Hgate Hd He Hdir Hself Hp) as H.
  cbv zeta in H. destruct H as (Hroute & _ & _ & Hnotes & _ & _ & Hj & _).
  eexists. split.
  - rewrite Hroute.
    assert (doc_stickyNotes d = []) as Hnil.
    { assert (doc_stickyNotes <$> demo_store !! "D-team" = Some [])
        as Hn by (vm_compute; reflexivity).
      rewrite Hd in Hn. cbn in Hn. congruence. }
    cbn [validate demo_library]. rewrite Hnotes, Hnil.
    cbn [forallb fst]. apply lookup_insert_eq.
  - apply Hj. rewrite Ha. exact Hown.
Defined.

(** X7.  When a user who passes the admin gate removes user [u] from a
    board, the board is saved without any entry of [u], and the answer
    is 200; or, when the board without them does not validate, the
    answer is 500 and the store is left as it was.  In the saved board,
    unless [u] is the owner, their next join is decided by the visibility
    alone, as a [viewer] of a public board, refused on a private one.
    The decision of every other user stays as it was, and removing a
    user who is no collaborator leaves the access record as it was. *)
Theorem X7_revoke_takes_effect
  (lib : Library) (dir : string -> option UserId) (now : Z)
  (store : gmap string Doc) (uid : UserId) (id : string) (d : Doc)
  (u : UserId) :
  passes (checkPermissions "admin" store id uid) ->
  store !! id = Some d ->
  let rq := DELETE_collaborator id u in
  let d' := with_access d
              (mkWhiteboard (wb_owner (doc_access d))
                 (filter (fun collab => c_user collab ≠ u)
                         (wb_collaborators (doc_access d)))
                 (wb_isPublic (doc_access d))) in
  route lib dir now store uid rq =
    (if validate lib d' then
       (<[id := d']> store,
        mkResponse 200
          (b_message_board "Collaborator removed successfully" id d'))
     else
       (store,
        mkResponse 500
          (b_message "Server error during collaborator removal"))) /\
  wb_owner (doc_access d') = wb_owner (doc_access d) /\
  wb_isPublic (doc_access d') = wb_isPublic (doc_access d) /\
  (u ≠ wb_owner (doc_access d) ->
   join_permission (doc_access d') u =
     if wb_isPublic (doc_access d) then Some ("viewer", false) else None) /\
  (forall v, v ≠ u ->
     join_permission (doc_access d') v = join_permission (doc_access d) v) /\
  (find_collaborator u (wb_collaborators (doc_access d)) = None ->
   wb_collaborators (doc_access d') = wb_collaborators (doc_access d)).
Proof.
  intros Hgate Hd rq d'. subst rq. cbn [route].
  destruct (guarded_passes "admin" store id uid
              (fun _ => remove_collaborator lib store id u) Hgate)
    as (role & d0 & _ & _ & ->).
  unfold remove_collaborator. rewrite Hd. fold d'. unfold save.
  split_and!; try done.
  - intros Howner. unfold join_permission. subst d'. unfold with_access.
    cbn [doc_access wb_owner wb_collaborators wb_isPublic].
    rewrite bool_decide_eq_false_2 by congruence.
    by rewrite find_filter_removed.
  - intros v Hv. apply join_permission_ext; try done.
    by apply find_filter_other.
  - intros Hf. subst d'. unfold with_access.
    cbn [doc_access wb_collaborators]. by apply filter_absent.
Qed.

(** Eve, an [admin] collaborator, removes Bob from the private board. *)
Lemma X7_revoke_takes_effect_witness :
  join_permission
    (mkWhiteboard (wb_owner board_team)
       (filter (fun collab => c_user collab ≠ "u-bob")
               (wb_collaborators board_team))
       (wb_isPublic board_team)) "u-bob" = None.
Proof.
  assert ("u-bob" ≠ wb_owner board_team) as Hown by done.
  assert (wb_isPublic board_team = false) as Hpub by reflexivity.
  assert (passes (checkPermissions "admin" demo_store "D-team" "u-eve"))
    as Hgate by (vm_compute; exact I).
  destruct demo_store_team as (d & Hd & Ha).
  pose proof (X7_revoke_takes_effect demo_library demo_directory 0
                demo_store "u-eve" "D-team" d "u-bob" Hgate Hd) as H.
  cbv zeta in H. destruct H as (_ & _ & _ & Hj & _).
  rewrite Ha in Hj. unfold with_access in Hj.
  cbn [doc_access] in Hj. rewrite (Hj Hown), Hpub. reflexivity.
Defined.

(** X8.  When a user who passes the admin gate switches the visibility
    of a board, the board is saved with the flag negated and nothing
    else changed, and the answer is 200; or, when the board with the
    negated flag does not validate, the answer is 500 and the store is
    left as it was.  The join decision of the owner and of every
    collaborator is the same in the saved board, and when the board
    validates under both values of the flag, a second switch by the same
    user puts the store back exactly as it was. *)
Theorem X8_visibility_toggle
  (lib : Library) (dir : string -> option UserId) (now : Z)
  (store : gmap string Doc) (uid : UserId) (id : string) (d : Doc) :
  passes (checkPermissions "admin" store id uid) ->
  store !! id = Some d ->
  let rq := PUT_visibility id in
  let d' := mkDoc (doc_name d)
              (mkWhiteboard (wb_owner (doc_access d))
                            (wb_collaborators (doc_access d))
                            (negb (wb_isPublic (doc_access d))))
              (doc_drawingPaths d) (doc_stickyNotes d)
              (doc_lastModified d) (doc_createdAt d) in
  let store' := fst (route lib dir now store uid rq) in
  route lib dir now store uid rq =
    (if validate lib d' then
       (<[id := d']> store,
        mkResponse 200
          (b_message_board
             ("Whiteboard is now " +:+
              (if negb (wb_isPublic (doc_access d))
               then "public" else "private")) id d'))
     else
       (store,
        mkResponse 500 (b_message "Server error during visibility update")))
  /\
  (forall v,
     v = wb_owner (doc_access d) \/
     v ∈ c_user <$> wb_collaborators (doc_access d) ->
     join_permission (doc_access d') v = join_permission (doc_access d) v) /\
  (validate lib d' = true -> validate lib d = true ->
   fst (route lib dir now store' uid rq) = store).
Proof.
  intros Hgate Hd rq d' store'.
  assert (forall st0 d0,
            passes (checkPermissions "admin" st0 id uid) ->
            st0 !! id = Some d0 ->
            route lib dir now st0 uid rq =
              save lib st0 id
                (with_access d0
                   (mkWhiteboard (wb_owner (doc_access d0))
                      (wb_collaborators (doc_access d0))
                      (negb (wb_isPublic (doc_access d0)))))
                (mkResponse 200
                   (b_message_board
                      ("Whiteboard is now " +:+
                       (if negb (wb_isPublic (doc_access d0))
                        then "public" else "private")) id
                      (with_access d0
                         (mkWhiteboard (wb_owner (doc_access d0))
                            (wb_collaborators (doc_access d0))
                            (negb (wb_isPublic (doc_access d0)))))))
                "Server error during visibility update") as Hroute.
  { intros st0 d0 Hg0 Hd0. subst rq. cbn [route].
    destruct (guarded_passes "admin" st0 id uid
                (fun _ => toggle_visibility lib st0 id) Hg0)
      as (role & d1 & _ & _ & ->).
    unfold toggle_visibility. by rewrite Hd0. }
  assert (route lib dir now store uid rq =
            (if validate lib d' then
               (<[id := d']> store,
                mkResponse 200
                  (b_message_board
                     ("Whiteboard is now " +:+
                      (if negb (wb_isPublic (doc_access d))
                       then "public" else "private")) id d'))
             else
               (store,
                mkResponse 500
                  (b_message "Server error during visibility update"))))
    as Hfirst.
  { rewrite (Hroute store d Hgate Hd). unfold save, with_access. fold d'.
    by destruct (validate lib d'). }
  split_and!.
  - exact Hfirst.
  - intros v Hv. unfold join_permission. subst d'.
    cbn [doc_access wb_owner wb_collaborators wb_isPublic].
    case_bool_decide as Ho; [done |].
    destruct Hv as [-> | Hv]; [done |].
    destruct (find_collaborator v _) eqn:Hf; [done |].
    by apply find_collaborator_not_elem in Hf.
  - intros Hv' Hv. subst store'. rewrite Hfirst, Hv'. cbn [fst].
    assert (passes (checkPermissions "admin" (<[id := d']> store) id uid))
      as Hgate'.
    { apply passes_checkPermissions in Hgate
        as (d0 & Hd0 & Hcases). simplify_eq.
      apply passes_checkPermissions. exists d'.
      rewrite lookup_insert_eq. split; [done |].
      destruct Hcases as [Ho | [Ho [Hc | (? & _)]]]; [by left | | done].
      right. split; [done |]. by left. }
    rewrite (Hroute (<[id := d']> store) d' Hgate')
      by apply lookup_insert_eq.
    assert (with_access d'
              (mkWhiteboard (wb_owner (doc_access d'))
                 (wb_collaborators (doc_access d'))
                 (negb (wb_isPublic (doc_access d')))) = d) as ->.
    { subst d'. unfold with_access.
      cbn [doc_access doc_name doc_drawingPaths doc_stickyNotes
           doc_lastModified doc_createdAt wb_owner wb_collaborators
           wb_isPublic].
      rewrite negb_involutive. by destruct d as [? [] ? ? ? ?]. }
    unfold save. rewrite Hv. cbn [fst].
    rewrite insert_insert_eq. by apply insert_id.
Qed.

(** Ann closes the public board and opens it again. *)
Lemma X8_visibility_toggle_witness :
  fst (route demo_library demo_directory 0
         (fst (route demo_library demo_directory 0 demo_store "u-ann"
                 (PUT_visibility "D-open")))
         "u-ann" (PUT_visibility "D-open")) = demo_store.
Proof.
  assert (passes (checkPermissions "admin" demo_store "D-open" "u-ann"))
    as Hgate by (vm_compute; exact I).
  assert (exists d, demo_store !! "D-open" = Some d /\
                    doc_stickyNotes d = []) as (d & Hd & Hn)
    by (eexists; split; vm_compute; reflexivity).
  pose proof (X8_visibility_toggle demo_library demo_directory 0
                demo_store "u-ann" "D-open" d Hgate Hd) as H.
  cbv zeta in H. destruct H as (_ & _ & Hback).
  apply Hback.
  - cbn [validate demo_library doc_stickyNotes]. by rewrite Hn.
  - cbn [validate demo_library]. by rewrite Hn.
Defined.

(** ** Creating, listing and saving boards *)

(** X9.  Creating a board under a fresh, non-empty id answers 201 and
    stores a private board: its creator is the owner, accepted at join
    with role [owner] and canEdit, and every other user is refused; the
    board starts with no collaborators and no contents, and a missing or
    empty name becomes [Untitled Whiteboard].  Creating under an id in
    use answers 409 and leaves the store as it was. *)
Theorem X9_created_board_is_private
  (lib : Library) (dir : string -> option UserId) (now : Z)
  (store : gmap string Doc) (uid : UserId) (i : string)
  (name : option string) :
  i ≠ "" ->
  let rq := POST_board (Some i) name in
  (store !! i = None ->
   res_status (snd (route lib dir now store uid rq)) = 201 /\
   exists d,
     fst (route lib dir now store uid rq) !! i = Some d /\
     join_permission (doc_access d) uid = Some ("owner", true) /\
     (forall v, v ≠ uid -> join_permission (doc_access d) v = None) /\
     wb_collaborators (doc_access d) = [] /\
     doc_drawingPaths d = [] /\ doc_stickyNotes d = [] /\
     (truthy name = false -> doc_name d = "Untitled Whiteboard")) /\
  (is_Some (store !! i) ->
   route lib dir now store uid rq =
     (store,
      mkResponse 409 (b_message "Whiteboard with this ID already exists"))).
Proof.
  intros Hi rq. subst rq. cbn [route]. unfold create_board.
  cbn [truthy]. rewrite (bool_decide_eq_false_2 (i = "")) by done.
  cbn [negb]. split.
  - intros ->. cbn [fst snd res_status]. split; [done |].
    eexists. rewrite lookup_insert_eq. split; [done |].
    cbn [doc_access doc_drawingPaths doc_stickyNotes doc_name
         wb_collaborators].
    split_and!; try done.
    + unfold join_permission. cbn [wb_owner].
      by rewrite bool_decide_eq_true_2.
    + intros v Hv. unfold join_permission.
      cbn [wb_owner wb_collaborators wb_isPublic].
      by rewrite bool_decide_eq_false_2.
    + unfold or_default. by intros ->.
  - by intros [d ->].
Qed.

Lemma X9_created_board_is_private_witness :
  route demo_library demo_directory 0 demo_store "u-bob"
        (POST_board (Some "D-team") None)
    = (demo_store,
       mkResponse 409 (b_message "Whiteboard with this ID already exists")).
Proof.
  assert ("D-team" ≠ "") as Hi by done.
  assert (is_Some (demo_store !! "D-team")) as Hd
    by (eexists; vm_compute; reflexivity).
  exact (proj2 (X9_created_board_is_private demo_library demo_directory 0
                  demo_store "u-bob" "D-team" None Hi) Hd).
Defined.

Lemma listed_joinable uid d :
  listed uid d = true <-> is_Some (join_permission (doc_access d) uid).
Proof.
  unfold listed, join_permission.
  case_bool_decide as Ho; [by split; [eauto | done] |].
  cbn [orb]. destruct (find_collaborator uid _) as [c|] eqn:Hf.
  - split; [by eauto |]. intros _.
    rewrite bool_decide_eq_true_2; [done |].
    apply find_collaborator_elem in Hf as [Hc <-].
    by apply list_elem_of_fmap_2.
  - apply find_collaborator_not_elem in Hf.
    rewrite bool_decide_eq_false_2 by done. cbn [orb].
    destruct (wb_isPublic _); split; first [done | by eauto | by intros []].
Qed.

(** X10.  The listing shows a user exactly the boards that a join by that
    user would be let into: those they own, those they collaborate on,
    and the public ones; each with the name, owner, visibility and dates
    of the stored board. *)
Theorem X10_listing_shows_joinable_boards
  (store : gmap string Doc) (uid : UserId) (id : string) :
  (is_Some (list_boards store uid !! id) <->
   exists d, store !! id = Some d /\
             is_Some (join_permission (doc_access d) uid)) /\
  (forall sm, list_boards store uid !! id = Some sm ->
     exists d, store !! id = Some d /\ sm = summary d).
Proof.
  unfold list_boards. split.
  - unfold is_Some. setoid_rewrite lookup_fmap_Some.
    setoid_rewrite map_lookup_filter_Some. cbn [snd]. split.
    + intros (sm & d & _ & Hd & Hl). exists d. split; [done |].
      by apply listed_joinable.
    + intros (d & Hd & Hj). exists (summary d), d. split_and!; try done.
      by apply listed_joinable.
  - intros sm (d & <- & Hd)%lookup_fmap_Some.
    apply map_lookup_filter_Some in Hd as [Hd _]. eauto.
Qed.

(** X11.  Saving a board through the edit gate casts every element of
    the drawing paths and of the sticky notes of the request, a part the
    request leaves out counting as the empty list.  When every element
    casts, the answer is 200 and the board is stored with the cast paths
    and notes in place of the earlier ones and with the time of the
    change; so a part left out is stored as the empty list and the
    earlier drawing or notes are lost.  When an element fails to cast,
    the answer is 400 and the store is left as it was.  In both cases
    the name, the creation date and the whole access record (owner,
    collaborators, visibility) of the stored board are untouched. *)
Theorem X11_save_replaces_contents
  (lib : Library) (dir : string -> option UserId) (now : Z)
  (store : gmap string Doc) (uid : UserId) (id : string) (d : Doc)
  (dp sn : option (list (gmap string JVal))) :
  passes (checkPermissions "edit" store id uid) ->
  store !! id = Some d ->
  let rq := PUT_board id dp sn in
  let store' := fst (route lib dir now store uid rq) in
  let res := snd (route lib dir now store uid rq) in
  (forall paths notes,
     cast_all (cast_path lib) (default [] dp) = Ok paths ->
     cast_all (cast_note lib) (default [] sn) = Ok notes ->
     res_status res = 200 /\
     store' !! id =
       Some (mkDoc (doc_name d) (doc_access d) paths notes now
                   (doc_createdAt d)) /\
     (dp = None -> paths = []) /\ (sn = None -> notes = [])) /\
  (cast_all (cast_path lib) (default [] dp) = Throw \/
   cast_all (cast_note lib) (default [] sn) = Throw ->
   res = mkResponse 400 b_thrown /\ store' = store) /\
  (exists d', store' !! id = Some d' /\
     doc_name d' = doc_name d /\ doc_access d' = doc_access d /\
     doc_createdAt d' = doc_createdAt d).
Proof.
  intros Hgate Hd rq store' res. subst rq store' res. cbn [route].
  destruct (guarded_passes "edit" store id uid
              (fun _ => update_board lib now store id dp sn) Hgate)
    as (role & d0 & _ & _ & ->).
  unfold update_board. rewrite Hd.
  destruct (cast_all (cast_path lib) (default [] dp)) as [paths|] eqn:Hp;
    destruct (cast_all (cast_note lib) (default [] sn)) as [notes|] eqn:Hn;
    cbn [fst snd res_status]; try (split_and!; [done | done | by exists d]).
  rewrite lookup_insert_eq. split_and!.
  - intros ? ? [= <-] [= <-]. split_and!; [done | done | |].
    + intros ->. cbn in Hp. congruence.
    + intros ->. cbn in Hn. congruence.
  - by intros [? | ?].
  - by eexists.
Qed.

(** Cy saves notes only: the drawing of the board is emptied. *)
Lemma X11_save_replaces_contents_witness :
  exists d',
    fst (route demo_library demo_directory 7 demo_store "u-cy"
           (PUT_board "D-team" None (Some [∅]))) !! "D-team" = Some d' /\
    doc_drawingPaths d' = [] /\ doc_lastModified d' = 7%Z.
Proof.
  assert (passes (checkPermissions "edit" demo_store "D-team" "u-cy"))
    as Hgate by (vm_compute; exact I).
  destruct demo_store_team as (d & Hd & _).
  destruct (X11_save_replaces_contents demo_library demo_directory 7
              demo_store "u-cy" "D-team" d None (Some [∅]) Hgate Hd)
    as [Hok _].
  destruct (Hok [] [∅] eq_refl eq_refl) as (_ & Hd' & _).
  eexists. split; [exact Hd' |]. split; reflexivity.
Defined.

(** ** Further properties of the hub *)

Lemma on_join_outcome db st sid data :
  (exists message,
     message ∈ join_errors /\
     on_join_whiteboard db st sid data = join_failed st sid message) \/
  (exists d user wb userRole canEdit,
     data = Some d /\ reaches_check db d user wb /\
     join_permission wb (u_id user) = Some (userRole, canEdit) /\
     on_join_whiteboard db st sid data =
       enter_room st sid user (jd_whiteboardId d) userRole canEdit).
Proof.
  assert (forall message, message ∈ join_errors ->
            forall x, x = join_failed st sid message ->
            exists message, message ∈ join_errors /\
                            x = join_failed st sid message) as Hfail
    by eauto.
  assert ("Authentication required" ∈ join_errors) as H1
    by (unfold join_errors; rewrite !elem_of_cons; tauto).
  assert ("User not found" ∈ join_errors) as H2
    by (unfold join_errors; rewrite !elem_of_cons; tauto).
  assert ("Whiteboard not found" ∈ join_errors) as H3
    by (unfold join_errors; rewrite !elem_of_cons; tauto).
  assert ("Access denied" ∈ join_errors) as H4
    by (unfold join_errors; rewrite !elem_of_cons; tauto).
  assert ("Failed to join whiteboard" ∈ join_errors) as H5
    by (unfold join_errors; rewrite !elem_of_cons; tauto).
  unfold on_join_whiteboard.
  destruct data as [d|]; [| left; eauto].
  destruct (jd_token d) as [token|] eqn:Ht; [| left; eauto].
  simpl. case_bool_decide as He; simpl; [left; eauto |].
  destruct (jwt_verify db token) as [decoded|] eqn:Hj; [| left; eauto].
  destruct (User_findById db decoded) as [[user|]|] eqn:Hu;
    [| left; eauto..].
  destruct (Whiteboard_findById db (jd_whiteboardId d)) as [[wb|]|] eqn:Hw;
    [| left; eauto..].
  destruct (join_permission wb (u_id user)) as [[role ce]|] eqn:Hp;
    [| left; eauto].
  right. exists d, user, wb, role, ce. split_and!; try done.
  by exists token, decoded.
Qed.

(** X12.  Every join request on a connected socket ends in one of two
    ways.  Either it fails: the hub is left as it was and the joiner
    alone receives exactly one error, whose message is one of
    [Authentication required], [User not found], [Whiteboard not found],
    [Access denied] and [Failed to join whiteboard].  Or it succeeds: the
    joiner is a member of the room, the output is arrival notices to
    other connections followed by exactly one room info to the joiner,
    and no error at all.  A request without payload fails with [Failed to
    join whiteboard], and one without token, or with an empty one, fails
    with [Authentication required] whatever the lookups would answer. *)
Theorem X12_join_outcome
  (db : Oracle) (st : Hub) (sid : SocketId) (data : option JoinData) :
  is_Some (sockets st !! sid) ->
  let st' := fst (step st (join_whiteboard sid data db)) in
  let out := snd (step st (join_whiteboard sid data db)) in
  ((st' = st /\
    exists message, message ∈ join_errors /\ out = [(sid, error message)]) \/
   (exists r users role canEdit notices,
      out = (notices ++ [(sid, room_info r users role canEdit)])%list /\
      sid ∈ members st' r /\
      forall m ev, (m, ev) ∈ notices ->
        m ≠ sid /\ is_error ev = false /\ is_room_info ev = false)) /\
  (data = None -> out = [(sid, error "Failed to join whiteboard")]) /\
  (forall d, data = Some d -> truthy (jd_token d) = false ->
     out = [(sid, error "Authentication required")]).
Proof.
  intros [socket Hs] st' out. subst st' out. unfold step. rewrite Hs.
  split_and!.
  - destruct (on_join_outcome db st sid data)
      as [(msg & Hin & ->) | (d & user & wb & role & ce & _ & _ & _ & ->)].
    + left. split; [done |]. by exists msg.
    + right. unfold enter_room. cbn [fst snd].
      eexists _, _, _, _, _. split; [reflexivity |]. split.
      * rewrite members_socket_join, bool_decide_eq_true_2 by done.
        apply elem_of_set_add. by left.
      * intros m ev (x & [= -> ->] & _ & Hne)%elem_of_to_emit. done.
  - by intros ->.
  - intros d -> Ht. unfold on_join_whiteboard.
    destruct (jd_token d) as [token|]; [| done].
    by rewrite Ht.
Qed.

(** A join with an empty token. *)
Lemma X12_join_outcome_witness :
  snd (step (run two_in_team)
         (join_whiteboard "s-bob"
            (Some (mkJoinData "D-team" (Some ""))) demo_db))
    = [("s-bob", error "Authentication required")].
Proof.
  assert (is_Some (sockets (run two_in_team) !! "s-bob")) as Hs
    by (eexists; vm_compute; reflexivity).
  exact (proj2 (proj2 (X12_join_outcome demo_db (run two_in_team) "s-bob"
                         (Some (mkJoinData "D-team" (Some ""))) Hs))
               _ eq_refl eq_refl).
Defined.

(** X13.  For every input and every hub: an error or a room info in the
    output is addressed to the connection the input came from; every
    other message (arrival notice, departure notice, relay) is addressed
    to a different connection, one that is a member of some room after
    the step.  So no connection is told of another's errors, and no
    connection receives its own notices or relays. *)
Theorem X13_errors_private_relays_to_others
  (st : Hub) (i : Input) (m : SocketId) (ev : OutEvent) :
  (m, ev) ∈ snd (step st i) ->
  (is_error ev = true \/ is_room_info ev = true -> m = acting_socket i) /\
  (is_error ev = false -> is_room_info ev = false ->
   m ≠ acting_socket i /\ exists r, m ∈ members (fst (step st i)) r).
Proof.
  assert (forall st0 sender room e,
            (m, ev) ∈ to_emit st0 sender room e ->
            ev = e /\ m ≠ sender /\ exists r, m ∈ members st0 r) as Hemit.
  { intros st0 sender [r|] e; simpl; [| by intros ?%elem_of_nil].
    intros (x & [= -> ->] & Hm & Hne)%elem_of_to_emit. eauto. }
  destruct i as [sid|sid data db|sid e data|sid data|sid data|sid];
    unfold step; cbn [acting_socket];
    destruct (sockets st !! sid) as [socket|] eqn:Hs;
    try (by intros ?%elem_of_nil).
  - destruct (on_join_outcome db st sid data)
      as [(msg & _ & ->) | (d & user & wb & role & ce & _ & _ & _ & ->)].
    + by intros [= -> ->]%list_elem_of_singleton.
    + unfold enter_room. cbn [fst snd].
      intros [Hin | [= -> ->]%list_elem_of_singleton]%elem_of_app.
      * apply Hemit in Hin as (-> & Hne & Hr). split; [by intros [|] |].
        done.
      * done.
  - unfold on_edit. destruct (negb _); cbn [fst snd].
    + by intros [= -> ->]%list_elem_of_singleton.
    + intros (-> & Hne & Hr)%Hemit. split; [by intros [|] | done].
  - unfold on_clear_board. destruct (negb _); cbn [fst snd].
    + by intros [= -> ->]%list_elem_of_singleton.
    + intros (-> & Hne & Hr)%Hemit. split; [by intros [|] | done].
  - unfold on_cursor_move. destruct (truthy _); cbn [fst snd].
    + intros (-> & Hne & Hr)%Hemit. split; [by intros [|] | done].
    + by intros ?%elem_of_nil.
  - cbn [fst snd]. unfold on_disconnect. destruct (truthy _).
    + intros (-> & Hne & Hr)%Hemit. split; [by intros [|] | done].
    + by intros ?%elem_of_nil.
Qed.

(** Bob's refused stroke: the error goes to Bob alone. *)
Lemma X13_errors_private_relays_to_others_witness :
  "s-bob" = acting_socket (edit "s-bob" drawing ∅).
Proof.
  assert (("s-bob", error "You do not have permission to draw")
            ∈ snd (step (run two_in_team) (edit "s-bob" drawing ∅))) as Hin.
  { assert (snd (step (run two_in_team) (edit "s-bob" drawing ∅)) =
              [("s-bob", error "You do not have permission to draw")])
      as -> by (vm_compute; reflexivity).
    apply list_elem_of_singleton. reflexivity. }
  exact (proj1 (X13_errors_private_relays_to_others
                  (run two_in_team) (edit "s-bob" drawing ∅) "s-bob" _ Hin)
               (or_introl eq_refl)).
Defined.

(** X14.  An input on one connection never touches another connection:
    for every input and every connection [b] other than the one the
    input came from, the session fields of [b] (user, name, role,
    canEdit, room) and the rooms [b] is a member of are the same before
    and after the step. *)
Theorem X14_connections_are_isolated
  (st : Hub) (i : Input) (b : SocketId) :
  b ≠ acting_socket i ->
  sockets (fst (step st i)) !! b = sockets st !! b /\
  (forall r, b ∈ members (fst (step st i)) r <-> b ∈ members st r).
Proof.
  intros Hb. destruct (step_other st i b Hb) as [Hfields Hrooms].
  split; [exact Hfields | exact Hrooms].
Qed.

(** Bob's move to another room leaves Ann's session as it was. *)
Lemma X14_connections_are_isolated_witness :
  sockets (fst (step (run two_in_team) bob_moves)) !! "s-ann"
    = sockets (run two_in_team) !! "s-ann".
Proof.
  assert ("s-ann" ≠ acting_socket bob_moves) as Hb by done.
  exact (proj1 (X14_connections_are_isolated (run two_in_team) bob_moves
                  "s-ann" Hb)).
Defined.

Lemma snapshot_ids_enter_room st sid user r role ce :
  hub_inv st -> is_Some (sockets st !! sid) ->
  snapshot_ids (fst (enter_room st sid user r role ce)) r
    = set_add sid (members st r).
Proof.
  intros Hinv Hs.
  pose proof (enter_room_inv st sid user r role ce Hinv) as Hinv'.
  rewrite snapshot_ids_members
    by (intros m; by apply inv_members_connected).
  by rewrite members_enter_room, bool_decide_eq_true_2.
Qed.

Lemma usersInRoom_elem st r u :
  u ∈ usersInRoom st r <->
  ui_socketId u ∈ members st r /\
  exists s, sockets st !! ui_socketId u = Some s /\
            u = mkUserInfo (ui_socketId u) (s_username s) (s_userRole s).
Proof.
  unfold usersInRoom, members.
  destruct (rooms st !! r) as [l|]; simpl.
  2: { split; [by intros ?%elem_of_nil | by intros [?%elem_of_nil _]]. }
  rewrite list_elem_of_omap. split.
  - intros (m & Hm & Hu). destruct (sockets st !! m) as [s|] eqn:Hs; [| done].
    injection Hu as <-. simpl. eauto.
  - intros (Hm & s & Hs & Hu). exists (ui_socketId u). split; [done |].
    rewrite Hs. by rewrite Hu.
Qed.

(** X15.  A successful join on a reachable hub, first or repeated: the
    room gains the joiner and nothing else, and is unchanged when the
    joiner was in it already; every other member of the room, and nobody
    else, receives one arrival notice with the user id, name, new role
    and connection id of the joiner; then the joiner receives one room
    info whose list has one entry per member, the joiner's own entry with
    the new role included, and the entry of every earlier member as it
    was. *)
Theorem X15_join_choreography
  (tr : list Input) (sid : SocketId) (d : JoinData) (db : Oracle)
  (user : User) (wb : Whiteboard) (role : string) (canEdit : bool) :
  is_Some (sockets (run tr) !! sid) ->
  reaches_check db d user wb ->
  join_permission wb (u_id user) = Some (role, canEdit) ->
  let st := run tr in
  let r := jd_whiteboardId d in
  let st' := fst (step st (join_whiteboard sid (Some d) db)) in
  let out := snd (step st (join_whiteboard sid (Some d) db)) in
  members st' r = set_add sid (members st r) /\
  (sid ∈ members st r -> members st' r = members st r) /\
  exists users,
    out = (((fun m => (m, user_joined (u_id user) (u_username user) role sid))
              <$> set_delete sid (members st r))
           ++ [(sid, room_info r users role canEdit)])%list /\
    ui_socketId <$> users = set_add sid (members st r) /\
    mkUserInfo sid (Some (u_username user)) (Some role) ∈ users /\
    (forall u, u ∈ usersInRoom st r -> ui_socketId u ≠ sid -> u ∈ users).
Proof.
  intros [socket Hs] Hreach Hp st r st' out.
  pose proof (run_inv tr) as Hinv. fold st in Hinv, Hs.
  pose proof (step_join_enters st sid socket d db user wb role canEdit
                Hs Hreach Hp) as Hstep.
  subst st' out. rewrite Hstep. fold r.
  assert (members (fst (enter_room st sid user r role canEdit)) r
          = set_add sid (members st r)) as Hmem
    by by rewrite members_enter_room, bool_decide_eq_true_2.
  split_and!.
  - done.
  - intros Hin. rewrite Hmem. unfold set_add.
    by rewrite bool_decide_eq_true_2.
  - exists (usersInRoom (fst (enter_room st sid user r role canEdit)) r).
    split_and!.
    + unfold enter_room at 1. cbn [snd]. f_equal.
      unfold to_emit. f_equal.
      change (mkHub _ _) with (fst (enter_room st sid user r role canEdit)).
      rewrite Hmem. unfold set_add, set_delete.
      case_bool_decide as Hin; [done |].
      rewrite filter_app, filter_cons_False, filter_nil by (by intros ?).
      by rewrite app_nil_r.
    + apply snapshot_ids_enter_room; eauto.
    + apply usersInRoom_elem. cbn [ui_socketId]. split.
      * rewrite Hmem. apply elem_of_set_add. by left.
      * eexists. unfold enter_room. cbn [fst sockets].
        rewrite lookup_insert_eq. split; [done |]. done.
    + intros u [Hm (s & Hsu & Hu)]%usersInRoom_elem Hne.
      apply usersInRoom_elem. split.
      * rewrite Hmem. apply elem_of_set_add. by right.
      * exists s. split; [| done]. unfold enter_room. cbn [fst sockets].
        by rewrite lookup_insert_ne.
Qed.

(** Bob joins [D-team] a second time: Ann is told again, the room is as
    before. *)
Lemma X15_join_choreography_witness :
  members (fst (step (run two_in_team) (join_as "s-bob" "u-bob" "D-team")))
          "D-team"
    = members (run two_in_team) "D-team".
Proof.
  assert (is_Some (sockets (run two_in_team) !! "s-bob")) as Hs
    by (eexists; vm_compute; reflexivity).
  assert ("s-bob" ∈ members (run two_in_team) "D-team") as Hm.
  { apply (bool_decide_unpack _). by vm_compute. }
  assert (reaches_check demo_db (mkJoinData "D-team" (Some "u-bob"))
            (mkUser "u-bob" ("name of " +:+ "u-bob")) board_team) as Hr.
  { apply demo_reaches_check; [| reflexivity].
    rewrite !elem_of_cons. tauto. }
  exact (proj1 (proj2 (X15_join_choreography two_in_team "s-bob"
                         (mkJoinData "D-team" (Some "u-bob")) demo_db _ _
                         "view" false Hs Hr eq_refl)) Hm).
Defined.

Lemma join_permission_shape wb uid role ce :
  join_permission wb uid = Some (role, ce) ->
  (ce = true -> role = "owner" \/ role = "edit" \/ role = "admin") /\
  (role = "edit" \/ role = "admin" -> ce = true) /\
  (role = "viewer" \/ role = "view" -> ce = false).
Proof.
  unfold join_permission. case_bool_decide.
  { intros [= <- <-]. split_and!; [by left | done | by intros [|]]. }
  destruct (find_collaborator uid _) as [c|].
  - intros [= <- <-].
    pose proof (edit_or_admin_spec (c_permission c)) as He. split_and!.
    + intros Ht. right. by apply He.
    + by apply He.
    + intros Hv. destruct (edit_or_admin (c_permission c)); [| done].
      destruct He as [He _]. specialize (He eq_refl).
      destruct Hv as [Hv | Hv], He as [He | He]; congruence.
  - destruct (wb_isPublic wb); [| done]. intros [= <- <-].
    split_and!; [done | by intros [|] | done].
Qed.

Lemma step_decided st i :
  (forall sid s, sockets st !! sid = Some s -> decided s) ->
  forall sid s, sockets (fst (step st i)) !! sid = Some s -> decided s.
Proof.
  intros Hst.
  destruct i as [sid'|sid' data db|sid' e data|sid' data|sid' data|sid'].
  - unfold step.
    destruct (sockets st !! sid') as [socket|]; cbn [fst sockets]; [done |].
    intros sid s. rewrite lookup_insert. case_decide; [| apply Hst].
    intros [= <-]. by left.
  - unfold step. destruct (sockets st !! sid') as [socket|]; [| done].
    destruct (on_join_outcome db st sid' data)
      as [(msg & _ & ->) | (d & user & wb & role & ce & _ & _ & Hp & ->)];
      [done |].
    unfold enter_room. cbn [fst sockets]. intros sid s.
    rewrite lookup_insert. case_decide; [| apply Hst].
    intros [= <-]. right. by exists wb, (u_id user), role, ce.
  - by pose proof (handlers_keep_hub st (edit sid' e data)) as ->.
  - by pose proof (handlers_keep_hub st (clear_board sid' data)) as ->.
  - by pose proof (handlers_keep_hub st (cursor_move sid' data)) as ->.
  - unfold step.
    destruct (sockets st !! sid') as [socket|]; cbn [fst]; [| done].
    unfold close_socket. cbn [sockets]. intros sid s.
    rewrite lookup_delete. case_decide; [done | apply Hst].
Qed.

Lemma run_decided tr sid s :
  sockets (run tr) !! sid = Some s -> decided s.
Proof.
  unfold run. revert sid s.
  assert (forall st,
            (forall sid s, sockets st !! sid = Some s -> decided s) ->
            forall sid s, sockets (run_from st tr) !! sid = Some s ->
                          decided s) as H.
  { induction tr as [|i tr IH]; intros st Hst; [done |].
    simpl. apply IH. by apply step_decided. }
  apply H. intros sid s. simpl. by rewrite lookup_empty.
Qed.

(** X16.  On every reachable hub the cached role and canEdit of a session
    fit together: canEdit is true only for the roles [owner], [edit] and
    [admin]; it is true for [edit] and [admin], and false for [view] and
    [viewer].  Hence an edit-gated event is relayed only from a session
    whose role is [owner], [edit] or [admin]. *)
Theorem X16_role_and_canEdit_agree
  (tr : list Input) (sid : SocketId) (s : Socket) :
  sockets (run tr) !! sid = Some s ->
  (s_canEdit s = Some true ->
   s_userRole s = Some "owner" \/ s_userRole s = Some "edit" \/
   s_userRole s = Some "admin") /\
  (s_userRole s = Some "edit" \/ s_userRole s = Some "admin" ->
   s_canEdit s = Some true) /\
  (s_userRole s = Some "viewer" \/ s_userRole s = Some "view" ->
   s_canEdit s = Some false) /\
  (forall e data m ev,
     (m, ev) ∈ snd (step (run tr) (edit sid e data)) ->
     is_relay ev = true ->
     s_userRole s = Some "owner" \/ s_userRole s = Some "edit" \/
     s_userRole s = Some "admin").
Proof.
  intros Hs.
  assert ((s_canEdit s = Some true ->
           s_userRole s = Some "owner" \/ s_userRole s = Some "edit" \/
           s_userRole s = Some "admin") /\
          (s_userRole s = Some "edit" \/ s_userRole s = Some "admin" ->
           s_canEdit s = Some true) /\
          (s_userRole s = Some "viewer" \/ s_userRole s = Some "view" ->
           s_canEdit s = Some false)) as (H1 & H2 & H3).
  { destruct (run_decided tr sid s Hs)
      as [-> | (wb & uid & role & ce & Hp & Hr & Hc)].
    - split_and!; [done | by intros [|] | by intros [|]].
    - apply join_permission_shape in Hp as (P1 & P2 & P3).
      rewrite Hr, Hc. split_and!.
      + intros [= ->]. destruct (P1 eq_refl) as [-> | [-> | ->]]; tauto.
      + intros [[= ->] | [= ->]]; f_equal; apply P2; tauto.
      + intros [[= ->] | [= ->]]; f_equal; apply P3; tauto. }
  split_and!; try done.
  intros e data m ev. unfold step. rewrite Hs. unfold on_edit.
  destruct (s_canEdit s) as [[|]|]; cbn [negb default from_option fst snd].
  - intros _ _. by apply H1.
  - by intros [= -> ->]%list_elem_of_singleton.
  - by intros [= -> ->]%list_elem_of_singleton.
Qed.

(** Cy's session in [D-team]: role [edit], so canEdit. *)
Lemma X16_role_and_canEdit_agree_witness :
  exists s, sockets (run three_in_team) !! "s-cy" = Some s /\
            s_canEdit s = Some true.
Proof.
  assert (exists s, sockets (run three_in_team) !! "s-cy" = Some s /\
                    s_userRole s = Some "edit") as (s & Hs & Hr)
    by (eexists; split; vm_compute; reflexivity).
  exists s. split; [exact Hs |].
  exact (proj1 (proj2 (X16_role_and_canEdit_agree three_in_team "s-cy" s Hs))
               (or_introl Hr)).
Defined.

(** ** The production server *)


